(** * ezan-go: the daily adhan scheduler and its playback chain

    A shallow embedding of [ezan.go]: the configuration record, the volume
    lookup and gain mapping of [playAudio], the playback chain registered by
    [scheduleAdhan], the daily rebuild [updatePrayerTimes], the settings
    endpoint [updateSettingsHandler] with [onUpdateSettings], and [main].
    The repository also holds earlier variants of the program ([main.go] and
    others, without configuration or settings endpoint); [ezan.go] is the
    one embedded here.

    Conventions of the embedding.
    - Go's [float64] is idealised as a real number ([R]); the exponent of the
      gain is also evaluated on binary64 numbers.
    - The process-wide variables ([config], [coordinates], [scheduler]), the
      file [config.toml], the wall clock and everything the program prints,
      logs or plays are fields of one [State] that every function threads.
    - Functions of third-party packages (adhango, BurntSushi/toml, gin, beep,
      os) are fields of a [Library] record: the program is verified for
      every behaviour of these functions.
    - gocron's scheduler is a list of jobs; a job carries its task as data.
    - The calls that start something for good, [go router.Run] and
      [StartBlocking], are recorded in the output, in program order.
    - The HTTP server runs in a goroutine beside [main]: what it serves
      while [main] starts the process is given as a list of arrivals after
      each statement of [main]. *)

From Stdlib Require Import PrimFloat.
From Stdlib Require Uint63.
From Stdlib Require Import Reals Lra Lia ZArith String Ascii List.
From stdpp Require Import gmap strings list fin_maps.
Import ListNotations.

#[local] Set Warnings "-register-all".
#[local] Open Scope string_scope.

(** ** Errors *)

(** A Go [error]: either produced by a library, or built by
    [fmt.Errorf("<prefix>: %v", err)]. *)
Inductive Error : Type :=
| LibError (msg : string)
| Errorf (prefix : string) (cause : Error).

(** A Go result pair [(value, err)] where the value is meaningful only when
    the error is nil. *)
Inductive result (A : Type) : Type :=
| Ok (a : A)
| Err (e : Error).
Arguments Ok {A} a.
Arguments Err {A} e.

(** ** Time *)

Record Time : Type := mkTime {
  t_year : nat; t_month : nat; t_day : nat;
  t_hour : nat; t_minute : nat; t_second : nat;
  t_nsec : nat;
  t_location : string
}.

Definition digit (n : nat) : ascii := ascii_of_nat (48 + n mod 10).

(** Two decimal digits, zero padded. *)
Definition pad2 (n : nat) : string :=
  String (digit (n / 10)) (String (digit n) EmptyString).

(** [t.Format("15:04:05")]. *)
Definition Format_150405 (t : Time) : string :=
  pad2 (t_hour t) ++ ":" ++ pad2 (t_minute t) ++ ":" ++ pad2 (t_second t).

(** ** The adhango packages (types only; the functions are in [Library]) *)

Module util.
Record Coordinates : Type := mkCoordinates {
  Latitude : R;
  Longitude : R
}.
End util.

Module data.
Record DateComponents : Type := mkDate {
  Year : nat; Month : nat; Day : nat
}.

Definition NewDateComponents (t : Time) : DateComponents :=
  {| Year := t_year t; Month := t_month t; Day := t_day t |}.
End data.

Module calc.
Inductive Madhab : Type := SHAFI_HANBALI_MALIKI | HANAFI.

Inductive CalculationMethod : Type :=
| OTHER | MUSLIM_WORLD_LEAGUE | TURKEY | EGYPTIAN | KARACHI | UMM_AL_QURA
| DUBAI | MOON_SIGHTING_COMMITTEE | NORTH_AMERICA | KUWAIT | QATAR
| SINGAPORE | UOIF.

(** What [NewCalculationParametersBuilder().SetMadhab(m).SetMethod(c).Build()]
    carries. *)
Record CalculationParameters : Type := mkParams {
  Madhab_ : Madhab;
  Method : CalculationMethod
}.

Record PrayerTimes : Type := mkPrayerTimes {
  Fajr : Time; Sunrise : Time; Dhuhr : Time;
  Asr : Time; Maghrib : Time; Isha : Time
}.
End calc.

(** ** Configuration *)

(** The nested [Volume] struct of [Config]. *)
Record VolumeConfig : Type := mkVolume {
  Fajr : R;
  Dhuhr : R;
  Asr : R;
  Maghrib : R;
  Isha : R;
  VolAdhanPrayer : R;   (* field [AdhanPrayer], toml key [adhan_prayer] *)
  Sela : R
}.

Record Config : Type := mkConfig {
  Lan : R;
  Lon : R;
  CalculationMethod : string;
  AdhanPrayer : bool;
  Volume : VolumeConfig
}.

(** ** Audio: files, volume lookup, gain *)

(** [audioFiles]: prayer names to audio file paths. *)
Definition audioFiles : gmap string string :=
  list_to_map
    [ ("fajr", "audio/ezan1.mp3");
      ("dhuhr", "audio/ezan2.mp3");
      ("asr", "audio/ezan3.mp3");
      ("maghrib", "audio/ezan4.mp3");
      ("isha", "audio/ezan5.mp3");
      ("test", "audio/test.mp3");
      ("prayer", "audio/prayer.mp3");
      ("sela", "audio/sela.mp3") ].

(** [audioFiles[name]]: indexing a Go map gives the zero value (the empty
    string) for a missing key. *)
Definition audioFile (name : string) : string :=
  default "" (audioFiles !! name).

(** [getVolumeForPrayer], a [switch] on the prayer type. *)
Definition getVolumeForPrayer (cfg : Config) (prayerType : string) : R :=
  if String.eqb prayerType "fajr" then Fajr (Volume cfg)
  else if String.eqb prayerType "dhuhr" then Dhuhr (Volume cfg)
  else if String.eqb prayerType "asr" then Asr (Volume cfg)
  else if String.eqb prayerType "maghrib" then Maghrib (Volume cfg)
  else if String.eqb prayerType "isha" then Isha (Volume cfg)
  else if String.eqb prayerType "prayer" then VolAdhanPrayer (Volume cfg)
  else if String.eqb prayerType "sela" then Sela (Volume cfg)
  else 100%R.

(** One stereo sample. *)
Definition Sample : Type := (R * R)%type.

Module effects.
(** beep's [effects.Volume]: a streamer wrapped with a gain of
    [Base ^ Volume]. [Silent] is false when the field is not set. *)
Record Volume : Type := mkVolumeFx {
  Streamer : list Sample;
  Base : R;
  Volume_ : R;
  Silent : bool
}.

Definition gain (v : Volume) : R :=
  if Silent v then 0%R else Rpower (Base v) (Volume_ v).

(** [Stream]: every sample of the wrapped streamer, both channels
    multiplied by the gain. *)
Definition Stream (v : Volume) : list Sample :=
  map (fun smp => (fst smp * gain v, snd smp * gain v)%R) (Streamer v).
End effects.

(** The exponent [playAudio] hands to [effects.Volume]:
    [-4 + (volume / 100.0 * 4)], over the reals. Rounding is monotone, so
    what is proved of the order of exponents and gains carries over to
    binary64; an equation between exponents need not. *)
Definition volumeExponent (volume : R) : R := (-4 + (volume / 100 * 4))%R.

(** The same expression on binary64 numbers, as the machine computes it. *)
Definition volumeExponent64 (volume : PrimFloat.float) : PrimFloat.float :=
  (-4 + (volume / 100 * 4))%float.

(** A whole percentage as a binary64 number. *)
Definition percent64 (n : nat) : PrimFloat.float :=
  PrimFloat.of_uint63 (Uint63.of_Z (Z.of_nat n)).

(** The [effects.Volume] that [playAudio] builds around a decoded streamer. *)
Definition volumeAdjusted (streamer : list Sample) (volume : R) : effects.Volume :=
  {| effects.Streamer := streamer;
     effects.Base := 2;
     effects.Volume_ := volumeExponent volume;
     effects.Silent := false |}.

(** Channel by channel, sample [a] is no louder than sample [b]. *)
Definition noLouder (a b : Sample) : Prop :=
  (Rabs (fst a) <= Rabs (fst b))%R /\ (Rabs (snd a) <= Rabs (snd b))%R.

(** The amplitude ratio of a level given in decibel. *)
Definition dBToGain (dB : R) : R := Rpower 10 (dB / 20).

(** ** Documents: decoded JSON and TOML *)

(** What [encoding/json] and [toml] put into an [interface{}]. *)
Inductive Value : Type :=
| VNil
| VBool (b : bool)
| VInt (z : Z)
| VFloat (r : R)
| VString (s : string)
| VArray (l : list Value)
| VTable (m : gmap string Value).

(** A [map[string]interface{}]. *)
Abbreviation Doc := (gmap string Value).

(** ** Output *)

Inductive Msg : Type :=
| MsgScheduling (prayerName : string) (prayerTime : Time)
| MsgPlaying (prayerName : string) (prayerTime : Time)
| MsgErrorPlaying (prayerName : string) (err : Error)
| MsgPlayingPrayerAfter (prayerName : string)
| MsgErrorPlayingPrayerAfter (prayerName : string) (err : Error)
| MsgErrorCalculating (err : Error)
| MsgErrorTimezone (err : Error)
| MsgTodaysPrayerTimes
| MsgPrayerTime (label : string) (t : Time)
| MsgUnknownMethod (methodStr : string)
| MsgFailedToReload (err : Error)
| MsgFailedToUpdateCoordinates (err : Error)
| MsgFailedToLoadConfig (err : Error)
| MsgFailedToInitCoordinates (err : Error).

Inductive Event : Type :=
| Stdout (m : Msg)                              (* fmt.Printf, fmt.Println *)
| Logged (m : Msg)                              (* log.Printf *)
| Fatal (m : Msg)                               (* log.Fatalf *)
| Played (path : string) (v : effects.Volume)   (* speaker.Play, to its end *)
| Serving (addr : string)                       (* go router.Run(addr) *)
| RunLoop.                                      (* scheduler.StartBlocking() *)

(** ** The scheduler (gocron) *)

(** What a job runs: the closure given to [Do], as data. *)
Inductive Task : Type :=
| UpdateTask                                         (* updatePrayerTimes(scheduler) *)
| AdhanTask (prayerName : string) (prayerTime : Time).  (* closure of scheduleAdhan *)

Record Job : Type := mkJob {
  job_id : nat;
  job_every : nat;             (* Every(n).Day() *)
  job_at : string;             (* At(...) *)
  job_tags : list string;      (* Tag(...) *)
  job_limit : option nat;      (* LimitRunsTo(n) *)
  job_task : Task              (* Do(...) *)
}.

Record Scheduler : Type := mkScheduler {
  jobs : list Job;
  nextId : nat;                (* source of fresh job identities *)
  running : bool               (* set by StartBlocking *)
}.

(** [gocron.NewScheduler(time.Local)]. *)
Definition NewScheduler : Scheduler :=
  {| jobs := []; nextId := 0; running := false |}.

Definition hasTag (tag : string) (j : Job) : bool :=
  existsb (String.eqb tag) (job_tags j).

(** [RemoveByTag]: removes every job carrying the tag; an error, and no
    change, when no job carries it. *)
Definition RemoveByTag (tag : string) (sch : Scheduler) : Scheduler * option Error :=
  if existsb (hasTag tag) (jobs sch)
  then ({| jobs := List.filter (fun j => negb (hasTag tag j)) (jobs sch);
           nextId := nextId sch;
           running := running sch |}, None)
  else (sch, Some (LibError "no jobs found with given tag")).

(** The chain [Every(every).Day().LimitRunsTo(limit).At(at).Tag(tags).Do(task)]:
    one more job, with a fresh identity. *)
Definition addJob (every : nat) (limit : option nat) (at_ : string)
    (tags : list string) (task : Task) (sch : Scheduler) : Scheduler :=
  {| jobs := jobs sch ++
       [ {| job_id := nextId sch; job_every := every; job_at := at_;
            job_tags := tags; job_limit := limit; job_task := task |} ];
     nextId := S (nextId sch);
     running := running sch |}.

(** [StartBlocking]: the scheduler starts to run its jobs. *)
Definition StartBlocking (sch : Scheduler) : Scheduler :=
  {| jobs := jobs sch; nextId := nextId sch; running := true |}.

(** The jobs of the daily group. *)
Definition adhanJobs (sch : Scheduler) : list Job :=
  List.filter (hasTag "adhan") (jobs sch).

(** ** Third-party functions *)

Record Format : Type := mkFormat { SampleRate : Z }.

(** The functions of other packages that the program calls. Each field is
    one function; nothing is assumed about what it returns. *)
Record Library : Type := mkLibrary {
  (* adhango *)
  util_NewCoordinates : R -> R -> option util.Coordinates * option Error;
  calc_NewPrayerTimes :
    option util.Coordinates -> data.DateComponents ->
    calc.CalculationParameters -> result calc.PrayerTimes;
  calc_SetTimeZone : calc.PrayerTimes -> string -> calc.PrayerTimes * option Error;
  (* BurntSushi/toml: a text is parsed into a table first, and the table is
     then stored into the Go value the caller passed *)
  toml_parse : string -> result Doc;
  toml_unify : Doc -> Config -> Config * option Error;
  toml_Encode : Doc -> string * option Error;
  (* gin *)
  gin_BindJSON : string -> result Doc;
  (* os, beep *)
  os_Open : string -> result string;
  mp3_Decode : string -> result (list Sample * Format);
  speaker_Init : Z -> Z -> option Error
}.

(** ** Program state *)

(** The file [config.toml]: what reading it gives, and what [os.Create] on
    it returns. *)
Record FileSystem : Type := mkFS {
  fs_read : result string;
  fs_create : option Error
}.

Record State : Type := mkState {
  config : Config;
  coordinates : option util.Coordinates;
  scheduler : Scheduler;
  fs : FileSystem;
  clock : Time;                (* time.Now() *)
  trace : list Event
}.

Definition set_config (c : Config) (s : State) : State :=
  {| config := c; coordinates := coordinates s; scheduler := scheduler s;
     fs := fs s; clock := clock s; trace := trace s |}.

Definition set_coordinates (c : option util.Coordinates) (s : State) : State :=
  {| config := config s; coordinates := c; scheduler := scheduler s;
     fs := fs s; clock := clock s; trace := trace s |}.

Definition set_scheduler (sch : Scheduler) (s : State) : State :=
  {| config := config s; coordinates := coordinates s; scheduler := sch;
     fs := fs s; clock := clock s; trace := trace s |}.

Definition set_fs (f : FileSystem) (s : State) : State :=
  {| config := config s; coordinates := coordinates s; scheduler := scheduler s;
     fs := f; clock := clock s; trace := trace s |}.

Definition set_clock (now : Time) (s : State) : State :=
  {| config := config s; coordinates := coordinates s; scheduler := scheduler s;
     fs := fs s; clock := now; trace := trace s |}.

Definition emit (e : Event) (s : State) : State :=
  {| config := config s; coordinates := coordinates s; scheduler := scheduler s;
     fs := fs s; clock := clock s; trace := trace s ++ [e] |}.

(** The zero value of [Config]. *)
Definition zeroConfig : Config :=
  {| Lan := 0; Lon := 0; CalculationMethod := ""; AdhanPrayer := false;
     Volume := {| Fajr := 0; Dhuhr := 0; Asr := 0; Maghrib := 0; Isha := 0;
                  VolAdhanPrayer := 0; Sela := 0 |} |}.

(** The package-level variables as they are when [main] starts. *)
Definition initState (f : FileSystem) (now : Time) : State :=
  {| config := zeroConfig; coordinates := None; scheduler := NewScheduler;
     fs := f; clock := now; trace := [] |}.

Definition madhab : calc.Madhab := calc.SHAFI_HANBALI_MALIKI.

Section Program.

Variable L : Library.

(** [loadConfig]: [toml.DecodeFile("config.toml", &config)] reads the file,
    parses it, and stores the table into the global [config] itself. *)
Definition loadConfig (s : State) : State * option Error :=
  match fs_read (fs s) with
  | Err err => (s, Some (Errorf "error loading config" err))
  | Ok text =>
    match toml_parse L text with
    | Err err => (s, Some (Errorf "error loading config" err))
    | Ok table =>
      let (c, err) := toml_unify L table (config s) in
      (set_config c s, option_map (Errorf "error loading config") err)
    end
  end.

(** [playAudio]: plays the file to its end with the volume of [audioType]. *)
Definition playAudio (filepath audioType : string) (s : State) : State * option Error :=
  match os_Open L filepath with
  | Err err => (s, Some (Errorf "error opening audio file" err))
  | Ok f =>
    match mp3_Decode L f with
    | Err err => (s, Some (Errorf "error decoding MP3" err))
    | Ok (streamer, format) =>
      match speaker_Init L (SampleRate format) (SampleRate format / 10)%Z with
      | Some err => (s, Some (Errorf "error initializing speaker" err))
      | None =>
        let volume := getVolumeForPrayer (config s) audioType in
        (emit (Played filepath (volumeAdjusted streamer volume)) s, None)
      end
    end
  end.

(** The closure that [scheduleAdhan] gives to [Do]: the playback chain. *)
Definition adhanJob (prayerName : string) (prayerTime : Time) (s : State) : State :=
  let s := emit (Stdout (MsgPlaying prayerName prayerTime)) s in
  match playAudio (audioFile prayerName) prayerName s with
  | (s, Some err) => emit (Logged (MsgErrorPlaying prayerName err)) s
  | (s, None) =>
    if negb (String.eqb prayerName "test") && AdhanPrayer (config s) then
      let s := emit (Stdout (MsgPlayingPrayerAfter prayerName)) s in
      match playAudio (audioFile "prayer") "prayer" s with
      | (s, Some err) => emit (Logged (MsgErrorPlayingPrayerAfter prayerName err)) s
      | (s, None) => s
      end
    else s
  end.

(** [scheduleAdhan]: a one-shot job tagged "adhan" at the time of day of
    [prayerTime], to the second. *)
Definition scheduleAdhan (prayerName : string) (prayerTime : Time) (s : State) : State :=
  let s := emit (Stdout (MsgScheduling prayerName prayerTime)) s in
  set_scheduler
    (addJob 1 (Some 1) (Format_150405 prayerTime) ["adhan"]
            (AdhanTask prayerName prayerTime) (scheduler s)) s.

(** [getCalculationMethod]: an unknown name is logged and read as TURKEY. *)
Definition getCalculationMethod (methodStr : string) (s : State)
    : State * calc.CalculationMethod :=
  if String.eqb methodStr "OTHER" then (s, calc.OTHER)
  else if String.eqb methodStr "MUSLIM_WORLD_LEAGUE" then (s, calc.MUSLIM_WORLD_LEAGUE)
  else if String.eqb methodStr "TURKEY" then (s, calc.TURKEY)
  else if String.eqb methodStr "EGYPTIAN" then (s, calc.EGYPTIAN)
  else if String.eqb methodStr "KARACHI" then (s, calc.KARACHI)
  else if String.eqb methodStr "UMM_AL_QURA" then (s, calc.UMM_AL_QURA)
  else if String.eqb methodStr "DUBAI" then (s, calc.DUBAI)
  else if String.eqb methodStr "MOON_SIGHTING_COMMITTEE"
    then (s, calc.MOON_SIGHTING_COMMITTEE)
  else if String.eqb methodStr "NORTH_AMERICA" then (s, calc.NORTH_AMERICA)
  else if String.eqb methodStr "KUWAIT" then (s, calc.KUWAIT)
  else if String.eqb methodStr "QATAR" then (s, calc.QATAR)
  else if String.eqb methodStr "SINGAPORE" then (s, calc.SINGAPORE)
  else if String.eqb methodStr "UOIF" then (s, calc.UOIF)
  else (emit (Logged (MsgUnknownMethod methodStr)) s, calc.TURKEY).

(** The prayer times of today: [calc.NewPrayerTimes] then [SetTimeZone], as
    [updatePrayerTimes] computes them. The error, if any, comes with the
    message that is logged for it. *)
Definition computePrayerTimes (method : calc.CalculationMethod) (s : State)
    : calc.PrayerTimes + Msg :=
  let currentDate := clock s in
  let date := data.NewDateComponents currentDate in
  let params := {| calc.Madhab_ := madhab; calc.Method := method |} in
  match calc_NewPrayerTimes L (coordinates s) date params with
  | Err err => inr (MsgErrorCalculating err)
  | Ok prayerTimes =>
    match calc_SetTimeZone L prayerTimes (t_location currentDate) with
    | (_, Some err) => inr (MsgErrorTimezone err)
    | (prayerTimes, None) => inl prayerTimes
    end
  end.

(** The five [scheduleAdhan] calls that end [updatePrayerTimes]. *)
Definition scheduleAll (prayerTimes : calc.PrayerTimes) (s : State) : State :=
  let s := scheduleAdhan "fajr" (calc.Fajr prayerTimes) s in
  let s := scheduleAdhan "dhuhr" (calc.Dhuhr prayerTimes) s in
  let s := scheduleAdhan "asr" (calc.Asr prayerTimes) s in
  let s := scheduleAdhan "maghrib" (calc.Maghrib prayerTimes) s in
  scheduleAdhan "isha" (calc.Isha prayerTimes) s.

(** The six lines printed for today's prayer times. *)
Definition printPrayerTimes (prayerTimes : calc.PrayerTimes) (s : State) : State :=
  let s := emit (Stdout MsgTodaysPrayerTimes) s in
  let s := emit (Stdout (MsgPrayerTime "Fajr" (calc.Fajr prayerTimes))) s in
  let s := emit (Stdout (MsgPrayerTime "Dhuhr" (calc.Dhuhr prayerTimes))) s in
  let s := emit (Stdout (MsgPrayerTime "Asr" (calc.Asr prayerTimes))) s in
  let s := emit (Stdout (MsgPrayerTime "Maghrib" (calc.Maghrib prayerTimes))) s in
  emit (Stdout (MsgPrayerTime "Isha" (calc.Isha prayerTimes))) s.

(** [updatePrayerTimes]: computes today's times and replaces the jobs tagged
    "adhan"; on an error it logs and returns. *)
Definition updatePrayerTimes (s : State) : State :=
  let (s, method) := getCalculationMethod (CalculationMethod (config s)) s in
  match computePrayerTimes method s with
  | inr msg => emit (Logged msg) s
  | inl prayerTimes =>
    let s := printPrayerTimes prayerTimes s in
    let s := set_scheduler (fst (RemoveByTag "adhan" (scheduler s))) s in
    scheduleAll prayerTimes s
  end.

(** [onUpdateSettings]: reloads the configuration and the coordinates, then
    removes the jobs tagged "adhan" and calls [updatePrayerTimes]. *)
Definition onUpdateSettings (s : State) : State :=
  match loadConfig s with
  | (s, Some err) => emit (Logged (MsgFailedToReload err)) s
  | (s, None) =>
    let (c, err) := util_NewCoordinates L (Lan (config s)) (Lon (config s)) in
    let s := set_coordinates c s in
    match err with
    | Some err => emit (Logged (MsgFailedToUpdateCoordinates err)) s
    | None =>
      let s := set_scheduler (fst (RemoveByTag "adhan" (scheduler s))) s in
      updatePrayerTimes s
    end
  end.

(** ** The settings endpoint *)

(** The inner loop of the handler: [currentVolume[k] = v] for every entry of
    the update. *)
Definition mergeVolume (volumeUpdates currentVolume : Doc) : Doc :=
  map_fold (fun k v cur => <[k := v]> cur) currentVolume volumeUpdates.

(** One round of the outer loop, for the entry [key]/[value] of the update. *)
Definition mergeEntry (key : string) (value : Value) (currentConfig : Doc) : Doc :=
  if String.eqb key "volume" then
    match value with
    | VTable volumeUpdates =>
      match currentConfig !! "volume" with
      | Some (VTable currentVolume) =>
        (* the map in [currentConfig] is updated in place *)
        <["volume" := VTable (mergeVolume volumeUpdates currentVolume)]> currentConfig
      | _ => currentConfig
      end
    | _ => currentConfig
    end
  else <[key := value]> currentConfig.

(** The outer loop [for key, value := range updates]. *)
Definition mergeSettings (updates currentConfig : Doc) : Doc :=
  map_fold mergeEntry currentConfig updates.

(** The same loop with the entries of the update visited in a given order
    (Go ranges over a map in an order of its own choosing). *)
Definition mergeInOrder (entries : list (string * Value)) (currentConfig : Doc) : Doc :=
  fold_left (fun cur '(key, value) => mergeEntry key value cur)
            entries currentConfig.

(** A [c.JSON(status, gin.H{key: text})] reply. *)
Record Response : Type := mkResponse {
  status : nat;
  replyKey : string;
  replyText : string
}.

(** [os.Create] followed by [encoder.Encode]: the file is truncated, then
    holds whatever the encoder wrote. *)
Definition writeConfig (doc : Doc) (s : State) : State * option Response :=
  match fs_create (fs s) with
  | Some _ =>
    (s, Some (mkResponse 500 "error" "Failed to open config file for writing"))
  | None =>
    let (written, err) := toml_Encode L doc in
    let s := set_fs {| fs_read := Ok written; fs_create := fs_create (fs s) |} s in
    match err with
    | Some _ => (s, Some (mkResponse 500 "error" "Failed to write config file"))
    | None => (s, None)
    end
  end.

(** [updateSettingsHandler], for a POST with the given body. *)
Definition updateSettingsHandler (body : string) (s : State) : State * Response :=
  match gin_BindJSON L body with
  | Err _ => (s, mkResponse 400 "error" "Invalid JSON format")
  | Ok updates =>
    match fs_read (fs s) with
    | Err _ => (s, mkResponse 500 "error" "Failed to read config file")
    | Ok configBytes =>
      match toml_parse L configBytes with
      | Err _ => (s, mkResponse 500 "error" "Failed to parse config file")
      | Ok currentConfig =>
        match writeConfig (mergeSettings updates currentConfig) s with
        | (s, Some failure) => (s, failure)
        | (s, None) =>
          let s := onUpdateSettings s in
          (s, mkResponse 200 "message" "Settings updated successfully")
        end
      end
    end
  end.

(** ** Start of the process *)

(** [scheduler.StartBlocking()]: the call is recorded, the scheduler starts
    to run its jobs, and the call does not return. *)
Definition startBlocking (s : State) : State :=
  emit RunLoop (set_scheduler (StartBlocking (scheduler s)) s).

(** How [main] ends: [log.Fatalf] leaves the process, [StartBlocking] never
    returns. *)
Inductive Outcome : Type :=
| Exited (s : State)
| Scheduling (s : State).

Definition main (s : State) : Outcome :=
  match loadConfig s with
  | (s, Some err) => Exited (emit (Fatal (MsgFailedToLoadConfig err)) s)
  | (s, None) =>
    let s := emit (Serving ":8080") s in
    let (c, err) := util_NewCoordinates L (Lan (config s)) (Lon (config s)) in
    let s := set_coordinates c s in
    match err with
    | Some err => Exited (emit (Fatal (MsgFailedToInitCoordinates err)) s)
    | None =>
      let s := set_scheduler (addJob 1 None "00:00" [] UpdateTask (scheduler s)) s in
      let s := updatePrayerTimes s in
      Scheduling (startBlocking s)
    end
  end.

(** What the scheduler runs when a job is due. *)
Definition runTask (t : Task) (s : State) : State :=
  match t with
  | UpdateTask => updatePrayerTimes s
  | AdhanTask prayerName prayerTime => adhanJob prayerName prayerTime s
  end.

(** One firing of a job by the scheduler: only a started scheduler fires,
    and only jobs it holds. *)
Definition fire (j : Job) (s : State) : State :=
  if running (scheduler s) && existsb (fun k => Nat.eqb (job_id k) (job_id j)) (jobs (scheduler s))
  then runTask (job_task j) s
  else s.

(** ** The start of the process, with the HTTP server beside it

    From [go router.Run(":8080")] on, the goroutine of the server serves
    settings requests while [main] goes on; time passes, and a timer of the
    scheduler may come due. *)
Inductive Incoming : Type :=
| Request (body : string)      (* a POST to /settings is served *)
| Timer (j : Job)              (* the timer of a job comes due *)
| Elapse (now : Time).         (* the clock moves on to [now] *)

Definition incoming (i : Incoming) (s : State) : State :=
  match i with
  | Request body => fst (updateSettingsHandler body s)
  | Timer j => fire j s
  | Elapse now => set_clock now s
  end.

Definition meanwhile (arrivals : list Incoming) (s : State) : State :=
  fold_left (fun s i => incoming i s) arrivals s.

(** What arrives while [main] starts the process, by the statement of [main]
    it arrives after. The handler and [main] share the package variables
    without a lock; a request is taken here to be served as a whole between
    two statements of [main]. *)
Record Startup : Type := mkStartup {
  afterServing : list Incoming;       (* before util.NewCoordinates *)
  afterCoordinates : list Incoming;   (* before the midnight job is registered *)
  afterMidnightJob : list Incoming;   (* before updatePrayerTimes *)
  afterRebuild : list Incoming        (* before StartBlocking *)
}.

(** [main] with the server running beside it. *)
Definition mainServing (a : Startup) (s : State) : Outcome :=
  match loadConfig s with
  | (s, Some err) => Exited (emit (Fatal (MsgFailedToLoadConfig err)) s)
  | (s, None) =>
    let s := emit (Serving ":8080") s in
    let s := meanwhile (afterServing a) s in
    let (c, err) := util_NewCoordinates L (Lan (config s)) (Lon (config s)) in
    let s := set_coordinates c s in
    match err with
    | Some err => Exited (emit (Fatal (MsgFailedToInitCoordinates err)) s)
    | None =>
      let s := meanwhile (afterCoordinates a) s in
      let s := set_scheduler (addJob 1 None "00:00" [] UpdateTask (scheduler s)) s in
      let s := meanwhile (afterMidnightJob a) s in
      let s := updatePrayerTimes s in
      let s := meanwhile (afterRebuild a) s in
      Scheduling (startBlocking s)
    end
  end.

End Program.

(** ** Vocabulary of the properties *)

(** The five daily prayers. *)
Definition dailyPrayers : list string :=
  ["fajr"; "dhuhr"; "asr"; "maghrib"; "isha"].

(** The names with a volume of their own in [Config]. *)
Definition configuredNames : list string :=
  dailyPrayers ++ ["prayer"; "sela"].

(** The time computed for a daily prayer. *)
Definition prayerTimeOf (pt : calc.PrayerTimes) (name : string) : option Time :=
  if String.eqb name "fajr" then Some (calc.Fajr pt)
  else if String.eqb name "dhuhr" then Some (calc.Dhuhr pt)
  else if String.eqb name "asr" then Some (calc.Asr pt)
  else if String.eqb name "maghrib" then Some (calc.Maghrib pt)
  else if String.eqb name "isha" then Some (calc.Isha pt)
  else None.

(** The prayer a job announces. *)
Definition jobPrayer (j : Job) : option string :=
  match job_task j with
  | AdhanTask prayerName _ => Some prayerName
  | UpdateTask => None
  end.

(** Job identities are handed out in increasing order: every job the
    scheduler holds was given an identity below the next one. *)
Definition wfScheduler (sch : Scheduler) : Prop :=
  Forall (fun j => job_id j < nextId sch) (jobs sch).

(** What one call of [updatePrayerTimes] in state [s] computes: the times of
    today, or the message of the error it logs. *)
Definition todaysTimes (L : Library) (s : State) : calc.PrayerTimes + Msg :=
  computePrayerTimes L
    (snd (getCalculationMethod (CalculationMethod (config s)) s)) s.

(** A job of the daily group registered for the prayer times [pt]: a
    one-shot daily job, tagged "adhan", whose task and trigger time are those
    of one of the five prayers. *)
Definition armedFor (pt : calc.PrayerTimes) (j : Job) : Prop :=
  job_every j = 1 /\ job_limit j = Some 1 /\ job_tags j = ["adhan"] /\
  exists name t,
    prayerTimeOf pt name = Some t /\
    job_task j = AdhanTask name t /\
    job_at j = Format_150405 t.

(** What a run of the playback chain adds to the output. *)
Definition chainOutput (L : Library) (prayerName : string) (prayerTime : Time)
    (s : State) : list Event :=
  skipn (length (trace s)) (trace (adhanJob L prayerName prayerTime s)).

(** The secondary sound (the prayer after the adhan) is started. *)
Definition secondaryStarted (prayerName : string) (out : list Event) : Prop :=
  In (Stdout (MsgPlayingPrayerAfter prayerName)) out.

(** Every chain the scheduler holds announces one of the five daily
    prayers. *)
Definition dailyChains (sch : Scheduler) : Prop :=
  forall j name, In j (jobs sch) -> jobPrayer j = Some name -> In name dailyPrayers.

(** A sound is rendered. *)
Definition isPlayed (e : Event) : bool :=
  match e with
  | Played _ _ => true
  | _ => false
  end.

(** The merged settings document in the words of the interface: the update's
    top-level keys overwrite the stored ones, and the update's [volume]
    object is merged into the stored [volume] object. *)
Definition mergedDocument (updates stored : Doc) : Doc :=
  let top := delete "volume" updates ∪ stored in
  match updates !! "volume", stored !! "volume" with
  | Some (VTable volumeUpdates), Some (VTable storedVolume) =>
    <["volume" := VTable (volumeUpdates ∪ storedVolume)]> top
  | _, _ => top
  end.

(** The settings store cannot be read, or its text is not TOML: the
    failures of [toml.DecodeFile] that come before anything is stored. *)
Definition unreadable (L : Library) (s : State) : Prop :=
  match fs_read (fs s) with
  | Err _ => True
  | Ok text =>
    match toml_parse L text with
    | Err _ => True
    | Ok _ => False
    end
  end.

(** The settings store cannot be read, parsed or written for the update. *)
Definition storeFailure (L : Library) (updates : Doc) (s : State) : Prop :=
  match fs_read (fs s) with
  | Err _ => True
  | Ok text =>
    match toml_parse L text with
    | Err _ => True
    | Ok stored =>
      fs_create (fs s) <> None \/
      snd (toml_Encode L (mergeSettings updates stored)) <> None
    end
  end.

(** The file [config.toml] after [text] was written to it. *)
Definition written (text : string) (s : State) : State :=
  set_fs {| fs_read := Ok text; fs_create := fs_create (fs s) |} s.

(** The output lines of which every call of [updatePrayerTimes] prints or
    logs exactly one. *)
Definition isRebuildMark (e : Event) : bool :=
  match e with
  | Stdout MsgTodaysPrayerTimes => true
  | Logged (MsgErrorCalculating _) => true
  | Logged (MsgErrorTimezone _) => true
  | _ => false
  end.

(** The number of rebuilds an output shows. *)
Definition rebuilds (out : list Event) : nat :=
  length (List.filter isRebuildMark out).

(** The jobs outside the daily group. *)
Definition otherJobs (sch : Scheduler) : list Job :=
  List.filter (fun j => negb (hasTag "adhan" j)) (jobs sch).






(** ** A concrete installation

    One instance of the library functions and a few states, on which the
    program is run in the examples below. The TOML and JSON functions know
    the documents of the examples only. *)

Module Scenario.

Definition onDay (d h m : nat) : Time :=
  {| t_year := 2025; t_month := 3; t_day := d;
     t_hour := h; t_minute := m; t_second := 0; t_nsec := 0;
     t_location := "Local" |}.

(** The clock: 2 March 2025, 09:30:12. *)
Definition now : Time :=
  {| t_year := 2025; t_month := 3; t_day := 2;
     t_hour := 9; t_minute := 30; t_second := 12; t_nsec := 0;
     t_location := "Local" |}.

Definition timesOf1March : calc.PrayerTimes :=
  {| calc.Fajr := onDay 1 5 4; calc.Sunrise := onDay 1 6 53;
     calc.Dhuhr := onDay 1 12 24; calc.Asr := onDay 1 15 12;
     calc.Maghrib := onDay 1 17 45; calc.Isha := onDay 1 19 9 |}.

Definition timesOf2March : calc.PrayerTimes :=
  {| calc.Fajr := onDay 2 5 2; calc.Sunrise := onDay 2 6 51;
     calc.Dhuhr := onDay 2 12 24; calc.Asr := onDay 2 15 13;
     calc.Maghrib := onDay 2 17 47; calc.Isha := onDay 2 19 11 |}.

Definition volumes : VolumeConfig :=
  {| Fajr := 60; Dhuhr := 80; Asr := 80; Maghrib := 80; Isha := 70;
     VolAdhanPrayer := 50; Sela := 40 |}.

Definition berlinConfig : Config :=
  {| Lan := 52.52; Lon := 13.405; CalculationMethod := "TURKEY";
     AdhanPrayer := true; Volume := volumes |}.

(** The text of [config.toml] (one line stands for the file). *)
Definition configText : string := "config.toml of Berlin".

(** The table that text parses to. *)
Definition configTable : Doc :=
  {[ "lan" := VFloat 52.52;
     "lon" := VFloat 13.405;
     "calculation_method" := VString "TURKEY";
     "adhan_prayer" := VBool true;
     "volume" := VTable
       {[ "fajr" := VFloat 60; "dhur" := VFloat 80; "asr" := VFloat 80;
          "maghrib" := VFloat 80; "isha" := VFloat 70;
          "adhan_prayer" := VFloat 50; "sela" := VFloat 40 ]} ]}.

(** A request that lowers the fajr volume and changes the method. *)
Definition volumeBody : string := "{volume: {fajr: 0}, calculation_method: EGYPTIAN}".

Definition volumeUpdates : Doc :=
  {[ "volume" := VTable {[ "fajr" := VFloat 0 ]};
     "calculation_method" := VString "EGYPTIAN" ]}.

(** A request that changes the method and gives a text where the
    configuration has a boolean. *)
Definition brokenBody : string := "{calculation_method: EGYPTIAN, adhan_prayer: yes}".

Definition brokenUpdates : Doc :=
  {[ "calculation_method" := VString "EGYPTIAN";
     "adhan_prayer" := VString "yes" ]}.

Definition BindJSON (body : string) : result Doc :=
  if String.eqb body volumeBody then Ok volumeUpdates
  else if String.eqb body brokenBody then Ok brokenUpdates
  else Err (LibError "invalid character").

(** The encoder writes the table down; the text is named after what was
    asked for. *)
Definition Encode (doc : Doc) : string * option Error :=
  match doc !! "adhan_prayer" with
  | Some (VString _) => ("config.toml with a text for adhan_prayer", None)
  | _ => ("config.toml with fajr at 0", None)
  end.

Definition parse (text : string) : result Doc :=
  if String.eqb text configText then Ok configTable
  else if String.eqb text "config.toml with fajr at 0"
    then Ok (<["calculation_method" := VString "EGYPTIAN"]>
              (<["volume" := VTable
                   {[ "fajr" := VFloat 0; "dhur" := VFloat 80; "asr" := VFloat 80;
                      "maghrib" := VFloat 80; "isha" := VFloat 70;
                      "adhan_prayer" := VFloat 50; "sela" := VFloat 40 ]}]>
                 configTable))
  else if String.eqb text "config.toml with a text for adhan_prayer"
    then Ok (<["calculation_method" := VString "EGYPTIAN"]>
              (<["adhan_prayer" := VString "yes"]> configTable))
  else Err (LibError "toml: expected key separator").

(** The decoder stores a table into the [Config] key by key, each value
    into its field as soon as it is visited, and stops at the first value
    of the wrong type: what was stored before stays stored. A key without a
    field is skipped; an integer is taken for a float field. *)
Definition storeVolumeKey (key : string) (value : Value) (v : VolumeConfig)
    : VolumeConfig * option Error :=
  let wrong := (v, Some (LibError "toml: incompatible types: float")) in
  let field (set : R -> VolumeConfig) :=
    match value with
    | VFloat r => (set r, None)
    | VInt z => (set (IZR z), None)
    | _ => wrong
    end in
  match v with
  | mkVolume fajr dhuhr asr maghrib isha prayer sela =>
    if String.eqb key "fajr" then
      field (fun r => mkVolume r dhuhr asr maghrib isha prayer sela)
    else if String.eqb key "dhur" then
      field (fun r => mkVolume fajr r asr maghrib isha prayer sela)
    else if String.eqb key "asr" then
      field (fun r => mkVolume fajr dhuhr r maghrib isha prayer sela)
    else if String.eqb key "maghrib" then
      field (fun r => mkVolume fajr dhuhr asr r isha prayer sela)
    else if String.eqb key "isha" then
      field (fun r => mkVolume fajr dhuhr asr maghrib r prayer sela)
    else if String.eqb key "adhan_prayer" then
      field (fun r => mkVolume fajr dhuhr asr maghrib isha r sela)
    else if String.eqb key "sela" then
      field (fun r => mkVolume fajr dhuhr asr maghrib isha prayer r)
    else (v, None)
  end.

(** The keys of a table are visited in the order of [keys] (the decoder
    ranges over a Go map, in an order of its choosing; the order of the
    struct fields is taken here). *)
Fixpoint storeVolume (keys : list string) (table : Doc) (v : VolumeConfig)
    : VolumeConfig * option Error :=
  match keys with
  | [] => (v, None)
  | key :: rest =>
    match table !! key with
    | None => storeVolume rest table v
    | Some value =>
      match storeVolumeKey key value v with
      | (v, None) => storeVolume rest table v
      | failed => failed
      end
    end
  end.

Definition volumeKeys : list string :=
  ["fajr"; "dhur"; "asr"; "maghrib"; "isha"; "adhan_prayer"; "sela"].

Definition storeKey (key : string) (value : Value) (c : Config) : Config * option Error :=
  match c with
  | mkConfig lan lon method flag volume =>
    if String.eqb key "lan" then
      match value with
      | VFloat r => (mkConfig r lon method flag volume, None)
      | VInt z => (mkConfig (IZR z) lon method flag volume, None)
      | _ => (c, Some (LibError "toml: incompatible types: float"))
      end
    else if String.eqb key "lon" then
      match value with
      | VFloat r => (mkConfig lan r method flag volume, None)
      | VInt z => (mkConfig lan (IZR z) method flag volume, None)
      | _ => (c, Some (LibError "toml: incompatible types: float"))
      end
    else if String.eqb key "calculation_method" then
      match value with
      | VString x => (mkConfig lan lon x flag volume, None)
      | _ => (c, Some (LibError "toml: incompatible types: string"))
      end
    else if String.eqb key "adhan_prayer" then
      match value with
      | VBool b => (mkConfig lan lon method b volume, None)
      | _ => (c, Some (LibError "toml: incompatible types: bool"))
      end
    else if String.eqb key "volume" then
      match value with
      | VTable t =>
        let (v, err) := storeVolume volumeKeys t volume in
        (mkConfig lan lon method flag v, err)
      | _ => (c, Some (LibError "toml: incompatible types: table"))
      end
    else (c, None)
  end.

Fixpoint store (keys : list string) (table : Doc) (c : Config) : Config * option Error :=
  match keys with
  | [] => (c, None)
  | key :: rest =>
    match table !! key with
    | None => store rest table c
    | Some value =>
      match storeKey key value c with
      | (c, None) => store rest table c
      | failed => failed
      end
    end
  end.

Definition configKeys : list string :=
  ["lan"; "lon"; "calculation_method"; "adhan_prayer"; "volume"].

(** Storing a table into a [Config]. *)
Definition unify (table : Doc) (c : Config) : Config * option Error :=
  store configKeys table c.

(** Everything works: the files are there, the speaker opens, the times of
    today are computed. *)
Definition lib : Library :=
  {| util_NewCoordinates := fun lat lon =>
       (Some {| util.Latitude := lat; util.Longitude := lon |}, None);
     calc_NewPrayerTimes := fun _ _ _ => Ok timesOf2March;
     calc_SetTimeZone := fun pt _ => (pt, None);
     toml_parse := parse;
     toml_unify := unify;
     toml_Encode := Encode;
     gin_BindJSON := BindJSON;
     os_Open := fun path => Ok path;
     mp3_Decode := fun _ => Ok ([(1, -1); (0.5, 0.25)]%R, {| SampleRate := 44100%Z |});
     speaker_Init := fun _ _ => None |}.

(** As [lib], but the prayer times cannot be computed (as for a place where
    the sun does not set that day). *)
Definition polarLib : Library :=
  {| util_NewCoordinates := util_NewCoordinates lib;
     calc_NewPrayerTimes := fun _ _ _ => Err (LibError "cannot compute prayer times");
     calc_SetTimeZone := calc_SetTimeZone lib;
     toml_parse := toml_parse lib;
     toml_unify := toml_unify lib;
     toml_Encode := toml_Encode lib;
     gin_BindJSON := gin_BindJSON lib;
     os_Open := os_Open lib;
     mp3_Decode := mp3_Decode lib;
     speaker_Init := speaker_Init lib |}.

(** As [lib], but no audio file can be opened. *)
Definition muteLib : Library :=
  {| util_NewCoordinates := util_NewCoordinates lib;
     calc_NewPrayerTimes := calc_NewPrayerTimes lib;
     calc_SetTimeZone := calc_SetTimeZone lib;
     toml_parse := toml_parse lib;
     toml_unify := toml_unify lib;
     toml_Encode := toml_Encode lib;
     gin_BindJSON := gin_BindJSON lib;
     os_Open := fun _ => Err (LibError "no such file or directory");
     mp3_Decode := mp3_Decode lib;
     speaker_Init := speaker_Init lib |}.

Definition disk : FileSystem :=
  {| fs_read := Ok configText; fs_create := None |}.

(** The process as [main] finds it. *)
Definition fresh : State := initState disk now.

(** The process on the morning of 2 March: configuration loaded, the
    midnight job and the five jobs of 1 March in a running scheduler. *)
Definition armed : State :=
  let s := {| config := berlinConfig;
              coordinates := Some {| util.Latitude := 52.52; util.Longitude := 13.405 |};
              scheduler := addJob 1 None "00:00" [] UpdateTask NewScheduler;
              fs := disk; clock := now; trace := [] |} in
  let s := scheduleAll timesOf1March s in
  set_scheduler (StartBlocking (scheduler s)) s.

End Scenario.

(** ** Vocabulary of the further properties *)

(** The job [main] registers with [Every(1).Day().At("00:00").Do(...)] on
    the new scheduler. *)
Definition midnightJob : Job :=
  {| job_id := 0; job_every := 1; job_at := "00:00"; job_tags := [];
     job_limit := None; job_task := UpdateTask |}.

(** The name under which a calculation method is configured. *)
Definition methodName (m : calc.CalculationMethod) : string :=
  match m with
  | calc.OTHER => "OTHER"
  | calc.MUSLIM_WORLD_LEAGUE => "MUSLIM_WORLD_LEAGUE"
  | calc.TURKEY => "TURKEY"
  | calc.EGYPTIAN => "EGYPTIAN"
  | calc.KARACHI => "KARACHI"
  | calc.UMM_AL_QURA => "UMM_AL_QURA"
  | calc.DUBAI => "DUBAI"
  | calc.MOON_SIGHTING_COMMITTEE => "MOON_SIGHTING_COMMITTEE"
  | calc.NORTH_AMERICA => "NORTH_AMERICA"
  | calc.KUWAIT => "KUWAIT"
  | calc.QATAR => "QATAR"
  | calc.SINGAPORE => "SINGAPORE"
  | calc.UOIF => "UOIF"
  end.

(** A time of day as a clock shows it. *)
Definition validClock (t : Time) : Prop :=
  t_hour t < 24 /\ t_minute t < 60 /\ t_second t < 60.

(** ** Further installations *)

Module Cases.

(** As [Scenario.lib], but the file of the prayer after the adhan is
    missing. *)
Definition noPrayerFileLib : Library :=
  {| util_NewCoordinates := util_NewCoordinates Scenario.lib;
     calc_NewPrayerTimes := calc_NewPrayerTimes Scenario.lib;
     calc_SetTimeZone := calc_SetTimeZone Scenario.lib;
     toml_parse := toml_parse Scenario.lib;
     toml_unify := toml_unify Scenario.lib;
     toml_Encode := toml_Encode Scenario.lib;
     gin_BindJSON := gin_BindJSON Scenario.lib;
     os_Open := fun path =>
       if String.eqb path "audio/prayer.mp3"
       then Err (LibError "no such file or directory")
       else Ok path;
     mp3_Decode := mp3_Decode Scenario.lib;
     speaker_Init := speaker_Init Scenario.lib |}.

(** As [Scenario.lib], but only existing files can be opened. *)
Definition strictFilesLib : Library :=
  {| util_NewCoordinates := util_NewCoordinates Scenario.lib;
     calc_NewPrayerTimes := calc_NewPrayerTimes Scenario.lib;
     calc_SetTimeZone := calc_SetTimeZone Scenario.lib;
     toml_parse := toml_parse Scenario.lib;
     toml_unify := toml_unify Scenario.lib;
     toml_Encode := toml_Encode Scenario.lib;
     gin_BindJSON := gin_BindJSON Scenario.lib;
     os_Open := fun path =>
       if String.eqb path ""
       then Err (LibError "no such file or directory")
       else Ok path;
     mp3_Decode := mp3_Decode Scenario.lib;
     speaker_Init := speaker_Init Scenario.lib |}.

(** As [Scenario.lib], but the coordinates are refused. *)
Definition noCoordinatesLib : Library :=
  {| util_NewCoordinates := fun _ _ => (None, Some (LibError "invalid coordinates"));
     calc_NewPrayerTimes := calc_NewPrayerTimes Scenario.lib;
     calc_SetTimeZone := calc_SetTimeZone Scenario.lib;
     toml_parse := toml_parse Scenario.lib;
     toml_unify := toml_unify Scenario.lib;
     toml_Encode := toml_Encode Scenario.lib;
     gin_BindJSON := gin_BindJSON Scenario.lib;
     os_Open := os_Open Scenario.lib;
     mp3_Decode := mp3_Decode Scenario.lib;
     speaker_Init := speaker_Init Scenario.lib |}.

(** As [Scenario.lib], but the encoder fails after writing a first line. *)
Definition brokenEncoderLib : Library :=
  {| util_NewCoordinates := util_NewCoordinates Scenario.lib;
     calc_NewPrayerTimes := calc_NewPrayerTimes Scenario.lib;
     calc_SetTimeZone := calc_SetTimeZone Scenario.lib;
     toml_parse := toml_parse Scenario.lib;
     toml_unify := toml_unify Scenario.lib;
     toml_Encode := fun _ => ("adhan_prayer = true", Some (LibError "toml: cannot encode"));
     gin_BindJSON := gin_BindJSON Scenario.lib;
     os_Open := os_Open Scenario.lib;
     mp3_Decode := mp3_Decode Scenario.lib;
     speaker_Init := speaker_Init Scenario.lib |}.

(** As [Scenario.lib], but every request body is read as the empty object. *)
Definition emptyBodyLib : Library :=
  {| util_NewCoordinates := util_NewCoordinates Scenario.lib;
     calc_NewPrayerTimes := calc_NewPrayerTimes Scenario.lib;
     calc_SetTimeZone := calc_SetTimeZone Scenario.lib;
     toml_parse := toml_parse Scenario.lib;
     toml_unify := toml_unify Scenario.lib;
     toml_Encode := fun _ => (Scenario.configText, None);
     gin_BindJSON := fun _ => Ok ∅;
     os_Open := os_Open Scenario.lib;
     mp3_Decode := mp3_Decode Scenario.lib;
     speaker_Init := speaker_Init Scenario.lib |}.

(** A stored document without a volume table. *)
Definition flatTable : Doc :=
  {[ "lan" := VFloat 52.52; "lon" := VFloat 13.405 ]}.

(** A disk without [config.toml]. *)
Definition emptyDisk : FileSystem :=
  {| fs_read := Err (LibError "open config.toml: no such file or directory");
     fs_create := None |}.

(** A process whose fajr volume is configured as 200. *)
Definition loud : State :=
  set_config {| Lan := 52.52; Lon := 13.405; CalculationMethod := "TURKEY";
                AdhanPrayer := false;
                Volume := {| Fajr := 200; Dhuhr := 80; Asr := 80; Maghrib := 80;
                             Isha := 70; VolAdhanPrayer := 50; Sela := 40 |} |}
             Scenario.armed.

End Cases.

(** ** The earlier version of the program

    The version before the configuration file ([part_001] of the unnamed
    sources): fixed coordinates and method, sounds played as decoded, the
    prayer after the adhan behind a package variable, and an audio test in
    [main]. It shares the scheduler and the third-party functions with the
    later version. *)

Module Earlier.

Inductive Msg : Type :=
| MsgScheduling (prayerName : string) (prayerTime : Time)
| MsgPlaying (prayerName : string) (prayerTime : Time)
| MsgErrorPlaying (prayerName : string) (err : Error)
| MsgPlayingPrayerAfter (prayerName : string)
| MsgErrorPlayingPrayerAfter (prayerName : string) (err : Error)
| MsgErrorCalculating (err : Error)
| MsgErrorTimezone (err : Error)
| MsgTodaysPrayerTimes
| MsgPrayerTime (label : string) (t : Time)
| MsgTestingAudio
| MsgAudioTestFailed (err : Error)
| MsgAudioTestSuccessful.

Inductive Event : Type :=
| Stdout (m : Msg)
| Logged (m : Msg)
| Played (path : string) (streamer : list Sample).   (* speaker.Play of the streamer itself *)

Record State : Type := mkState {
  coordinates : option util.Coordinates;
  playPrayerAfterAdhan : bool;
  scheduler : Scheduler;
  clock : Time;
  trace : list Event
}.

Definition set_scheduler (sch : Scheduler) (s : State) : State :=
  {| coordinates := coordinates s; playPrayerAfterAdhan := playPrayerAfterAdhan s;
     scheduler := sch; clock := clock s; trace := trace s |}.

Definition emit (e : Event) (s : State) : State :=
  {| coordinates := coordinates s; playPrayerAfterAdhan := playPrayerAfterAdhan s;
     scheduler := scheduler s; clock := clock s; trace := trace s ++ [e] |}.

(** The package variables as initialised:
    [coordinates, _ = util.NewCoordinates(52.52, 13.405)] and
    [playPrayerAfterAdhan = true]. *)
Definition initState (L : Library) (now : Time) : State :=
  {| coordinates := fst (util_NewCoordinates L 52.52 13.405);
     playPrayerAfterAdhan := true;
     scheduler := NewScheduler;
     clock := now;
     trace := [] |}.

Definition audioFiles : gmap string string :=
  list_to_map
    [ ("fajr", "audio/ezan1.mp3");
      ("dhuhr", "audio/ezan2.mp3");
      ("asr", "audio/ezan3.mp3");
      ("maghrib", "audio/ezan4.mp3");
      ("isha", "audio/ezan5.mp3");
      ("test", "audio/test.mp3");
      ("prayer", "audio/prayer.mp3") ].

Definition audioFile (name : string) : string :=
  default "" (audioFiles !! name).

Section Program.

Variable L : Library.

Definition playAudio (filepath : string) (s : State) : State * option Error :=
  match os_Open L filepath with
  | Err err => (s, Some (Errorf "error opening audio file" err))
  | Ok f =>
    match mp3_Decode L f with
    | Err err => (s, Some (Errorf "error decoding MP3" err))
    | Ok (streamer, format) =>
      match speaker_Init L (SampleRate format) (SampleRate format / 10)%Z with
      | Some err => (s, Some (Errorf "error initializing speaker" err))
      | None => (emit (Played filepath streamer) s, None)
      end
    end
  end.

Definition testAudioOutput (s : State) : State :=
  let s := emit (Stdout MsgTestingAudio) s in
  match playAudio (audioFile "test") s with
  | (s, Some err) => emit (Logged (MsgAudioTestFailed err)) s
  | (s, None) => emit (Stdout MsgAudioTestSuccessful) s
  end.

(** The closure that [scheduleAdhan] gives to [Do]. *)
Definition adhanJob (prayerName : string) (prayerTime : Time) (s : State) : State :=
  let s := emit (Stdout (MsgPlaying prayerName prayerTime)) s in
  match playAudio (audioFile prayerName) s with
  | (s, Some err) => emit (Logged (MsgErrorPlaying prayerName err)) s
  | (s, None) =>
    if negb (String.eqb prayerName "test") && playPrayerAfterAdhan s then
      let s := emit (Stdout (MsgPlayingPrayerAfter prayerName)) s in
      match playAudio (audioFile "prayer") s with
      | (s, Some err) => emit (Logged (MsgErrorPlayingPrayerAfter prayerName err)) s
      | (s, None) => s
      end
    else s
  end.

Definition scheduleAdhan (prayerName : string) (prayerTime : Time) (s : State) : State :=
  let s := emit (Stdout (MsgScheduling prayerName prayerTime)) s in
  set_scheduler
    (addJob 1 (Some 1) (Format_150405 prayerTime) ["adhan"]
            (AdhanTask prayerName prayerTime) (scheduler s)) s.

Definition updatePrayerTimes (s : State) : State :=
  let currentDate := clock s in
  let date := data.NewDateComponents currentDate in
  let params := {| calc.Madhab_ := calc.SHAFI_HANBALI_MALIKI;
                   calc.Method := calc.TURKEY |} in
  match calc_NewPrayerTimes L (coordinates s) date params with
  | Err err => emit (Logged (MsgErrorCalculating err)) s
  | Ok prayerTimes =>
    match calc_SetTimeZone L prayerTimes (t_location currentDate) with
    | (_, Some err) => emit (Logged (MsgErrorTimezone err)) s
    | (prayerTimes, None) =>
      let s := emit (Stdout MsgTodaysPrayerTimes) s in
      let s := emit (Stdout (MsgPrayerTime "Fajr" (calc.Fajr prayerTimes))) s in
      let s := emit (Stdout (MsgPrayerTime "Dhuhr" (calc.Dhuhr prayerTimes))) s in
      let s := emit (Stdout (MsgPrayerTime "Asr" (calc.Asr prayerTimes))) s in
      let s := emit (Stdout (MsgPrayerTime "Maghrib" (calc.Maghrib prayerTimes))) s in
      let s := emit (Stdout (MsgPrayerTime "Isha" (calc.Isha prayerTimes))) s in
      let s := set_scheduler (fst (RemoveByTag "adhan" (scheduler s))) s in
      let s := scheduleAdhan "fajr" (calc.Fajr prayerTimes) s in
      let s := scheduleAdhan "dhuhr" (calc.Dhuhr prayerTimes) s in
      let s := scheduleAdhan "asr" (calc.Asr prayerTimes) s in
      let s := scheduleAdhan "maghrib" (calc.Maghrib prayerTimes) s in
      scheduleAdhan "isha" (calc.Isha prayerTimes) s
    end
  end.

Definition onUpdateSettings (s : State) : State :=
  let s := set_scheduler (fst (RemoveByTag "adhan" (scheduler s))) s in
  updatePrayerTimes s.

(** [main] has no way out but the run loop. *)
Definition main (s : State) : State :=
  let s := set_scheduler (addJob 1 None "00:00" [] UpdateTask (scheduler s)) s in
  let s := updatePrayerTimes s in
  let s := testAudioOutput s in
  set_scheduler (StartBlocking (scheduler s)) s.

End Program.

(** What a run of the playback chain adds to the output. *)
Definition chainOutput (L : Library) (prayerName : string) (prayerTime : Time)
    (s : State) : list Event :=
  skipn (length (trace s)) (trace (adhanJob L prayerName prayerTime s)).

(** The sounds played, in order: file and decoded samples. *)
Definition playedSounds (out : list Event) : list (string * list Sample) :=
  omap (fun e => match e with
                 | Played path streamer => Some (path, streamer)
                 | _ => None
                 end) out.

(** The output of the audio test. *)
Definition isAudioTest (out : list Event) : Prop :=
  (exists streamer,
     out = [Stdout MsgTestingAudio; Played "audio/test.mp3" streamer;
            Stdout MsgAudioTestSuccessful]) \/
  (exists err, out = [Stdout MsgTestingAudio; Logged (MsgAudioTestFailed err)]).

End Earlier.

(** The sounds played, in order: file and decoded samples (the later
    version wraps them in a volume effect). *)
Definition playedSounds (out : list Event) : list (string * list Sample) :=
  omap (fun e => match e with
                 | Played path v => Some (path, effects.Streamer v)
                 | _ => None
                 end) out.

Module EarlierCases.

(** The earlier version on the morning of 2 March, with the jobs of
    [Scenario.armed]. *)
Definition armed : Earlier.State :=
  Earlier.set_scheduler (scheduler Scenario.armed)
    (Earlier.initState Scenario.lib Scenario.now).

End EarlierCases.

(** * Properties *)

(** ** Volume lookup and gain mapping *)

Lemma eqb_of_neq (a b : string) : a <> b -> String.eqb a b = false.
Proof. intros H. apply String.eqb_neq. exact H. Qed.

(** C10. For every name outside the seven configured ones (so also "test"
    and any unknown name), and whatever the configuration holds,
    [getVolumeForPrayer] returns the default 100. *)
Theorem getVolumeForPrayer_default (cfg : Config) (name : string) :
  ~ In name configuredNames ->
  getVolumeForPrayer cfg name = 100%R.
Proof.
  intros Hout. unfold configuredNames in Hout. simpl in Hout.
  unfold getVolumeForPrayer.
  repeat (rewrite eqb_of_neq; [| intros ->; apply Hout; tauto]).
  reflexivity.
Qed.

Lemma getVolumeForPrayer_default_witness :
  ~ In "test" configuredNames /\ getVolumeForPrayer zeroConfig "test" = 100%R.
Proof.
  assert (Hout : ~ In "test" configuredNames).
  { simpl. intros [H|[H|[H|[H|[H|[H|[H|[]]]]]]]]; discriminate H. }
  split; [exact Hout | exact (getVolumeForPrayer_default zeroConfig "test" Hout)].
Defined.

Lemma gain_volumeAdjusted (st : list Sample) (v : R) :
  effects.gain (volumeAdjusted st v) = Rpower 2 (volumeExponent v).
Proof. reflexivity. Qed.

Lemma gain_pos (st : list Sample) (v : R) :
  (0 < effects.gain (volumeAdjusted st v))%R.
Proof. rewrite gain_volumeAdjusted. unfold Rpower. apply exp_pos. Qed.

Lemma volumeExponent_le (v1 v2 : R) :
  (v1 <= v2)%R -> (volumeExponent v1 <= volumeExponent v2)%R.
Proof. unfold volumeExponent. intros H. lra. Qed.

Lemma gain_le (st1 st2 : list Sample) (v1 v2 : R) :
  (v1 <= v2)%R ->
  (effects.gain (volumeAdjusted st1 v1) <= effects.gain (volumeAdjusted st2 v2))%R.
Proof.
  intros H. rewrite !gain_volumeAdjusted.
  apply Rle_Rpower; [lra | apply volumeExponent_le; exact H].
Qed.

Lemma Rabs_scale_le (x g1 g2 : R) :
  (0 <= g1)%R -> (g1 <= g2)%R -> (Rabs (x * g1) <= Rabs (x * g2))%R.
Proof.
  intros H0 H. rewrite !Rabs_mult.
  rewrite (Rabs_pos_eq g1) by exact H0.
  rewrite (Rabs_pos_eq g2) by lra.
  apply Rmult_le_compat_l; [apply Rabs_pos | exact H].
Qed.

Lemma Stream_noLouder (st : list Sample) (v1 v2 : R) :
  (v1 <= v2)%R ->
  Forall2 noLouder (effects.Stream (volumeAdjusted st v1))
                   (effects.Stream (volumeAdjusted st v2)).
Proof.
  intros H. unfold effects.Stream. cbn [effects.Streamer volumeAdjusted].
  induction st as [|smp st IH]; simpl.
  - constructor.
  - constructor; [| exact IH].
    pose proof (gain_pos st v1) as Hpos.
    pose proof (gain_le st st v1 v2 H) as Hle.
    rewrite !gain_volumeAdjusted in *.
    split; cbn [fst snd]; apply Rabs_scale_le; lra.
Qed.

(** C5. The gain mapping is monotone: for volume percentages
    [0 <= v1 < v2 <= 100] the amplitude multiplier at [v1] is at most the one
    at [v2], and so is, sample by sample and channel by channel, the
    amplitude of the rendered sound. *)
Theorem gain_monotone (st : list Sample) (v1 v2 : R) :
  (0 <= v1)%R -> (v1 < v2)%R -> (v2 <= 100)%R ->
  (effects.gain (volumeAdjusted st v1) <= effects.gain (volumeAdjusted st v2))%R /\
  Forall2 noLouder (effects.Stream (volumeAdjusted st v1))
                   (effects.Stream (volumeAdjusted st v2)).
Proof.
  intros _ Hlt _. split.
  - apply gain_le. lra.
  - apply Stream_noLouder. lra.
Qed.

Lemma gain_monotone_witness :
  (effects.gain (volumeAdjusted [(1, -1)%R] 25) <=
   effects.gain (volumeAdjusted [(1, -1)%R] 50))%R /\
  Forall2 noLouder (effects.Stream (volumeAdjusted [(1, -1)%R] 25))
                   (effects.Stream (volumeAdjusted [(1, -1)%R] 50)).
Proof.
  apply (gain_monotone [(1, -1)%R] 25 50); lra.
Defined.

(** The exponent on binary64 numbers: exact at both ends and in the middle,
    and nondecreasing over the whole percentages from 0 to 100. *)
Example volumeExponent64_ends :
  volumeExponent64 100 = 0%float /\
  volumeExponent64 50 = (-2)%float /\
  volumeExponent64 0 = (-4)%float.
Proof. repeat split; reflexivity. Qed.

Example volumeExponent64_monotone :
  forallb (fun n => PrimFloat.leb (volumeExponent64 (percent64 n))
                                  (volumeExponent64 (percent64 (S n))))
          (seq 0 100) = true.
Proof. vm_compute. reflexivity. Qed.

Lemma Stream_unity (st : list Sample) (v : effects.Volume) :
  effects.gain v = 1%R -> effects.Streamer v = st -> effects.Stream v = st.
Proof.
  intros Hg <-. unfold effects.Stream. rewrite Hg.
  induction (effects.Streamer v) as [|[l r] rest IH]; simpl; [reflexivity |].
  rewrite IH, !Rmult_1_r. reflexivity.
Qed.

Lemma gain_at_100 (st : list Sample) : effects.gain (volumeAdjusted st 100) = 1%R.
Proof.
  rewrite gain_volumeAdjusted.
  replace (volumeExponent 100) with 0%R by (unfold volumeExponent; lra).
  apply Rpower_O. lra.
Qed.

Lemma gain_at_0 (st : list Sample) : effects.gain (volumeAdjusted st 0) = (/ 16)%R.
Proof.
  rewrite gain_volumeAdjusted.
  replace (volumeExponent 0) with (- INR 4)%R by (unfold volumeExponent; simpl; lra).
  rewrite Rpower_Ropp, Rpower_pow by lra. f_equal. lra.
Qed.

(** 10^(5/4) is above 16, since 10^5 is above 16^4. *)
Lemma sixteen_below : (16 < Rpower 10 (5 / 4))%R.
Proof.
  set (a := Rpower 10 (5 / 4)).
  assert (Ha : (0 < a)%R) by (unfold a, Rpower; apply exp_pos).
  assert (Hpow : (a ^ 4 = 10 ^ 5)%R).
  { rewrite <- (Rpower_pow 4 a Ha). unfold a. rewrite Rpower_mult.
    replace (5 / 4 * INR 4)%R with (INR 5) by (simpl; lra).
    apply Rpower_pow. lra. }
  destruct (Rlt_le_dec 16 a) as [Hlt | Hle]; [exact Hlt | exfalso].
  assert (H4 : (a ^ 4 <= 16 ^ 4)%R) by (apply pow_incr; lra).
  rewrite Hpow in H4. lra.
Qed.

(** 10^(6/5) is below 16, since 10^6 is below 16^5. *)
Lemma sixteen_above : (Rpower 10 (6 / 5) < 16)%R.
Proof.
  set (b := Rpower 10 (6 / 5)).
  assert (Hb : (0 < b)%R) by (unfold b, Rpower; apply exp_pos).
  assert (Hpow : (b ^ 5 = 10 ^ 6)%R).
  { rewrite <- (Rpower_pow 5 b Hb). unfold b. rewrite Rpower_mult.
    replace (6 / 5 * INR 5)%R with (INR 6) by (simpl; lra).
    apply Rpower_pow. lra. }
  destruct (Rlt_le_dec b 16) as [Hlt | Hle]; [exact Hlt | exfalso].
  assert (H5 : (16 ^ 5 <= b ^ 5)%R) by (apply pow_incr; lra).
  rewrite Hpow in H5. lra.
Qed.

(** C6, the two ends of the gain mapping. At 100 the gain is 1 and the
    rendered samples are the decoded ones. At 0 the gain is 2^-4 = 1/16, a
    level between -25 dB and -24 dB: far above the -96 dB that the comment
    in [playAudio] gives for it. *)
Theorem gain_endpoints (st : list Sample) :
  effects.gain (volumeAdjusted st 100) = 1%R /\
  effects.Stream (volumeAdjusted st 100) = st /\
  effects.gain (volumeAdjusted st 0) = (/ 16)%R /\
  (dBToGain (-96) < dBToGain (-25))%R /\
  (dBToGain (-25) < effects.gain (volumeAdjusted st 0))%R /\
  (effects.gain (volumeAdjusted st 0) < dBToGain (-24))%R.
Proof.
  split; [apply gain_at_100 |].
  split; [apply Stream_unity; [apply gain_at_100 | reflexivity] |].
  split; [apply gain_at_0 |].
  rewrite gain_at_0. unfold dBToGain.
  split; [apply Rpower_lt; lra |].
  split.
  - replace (-25 / 20)%R with (- (5 / 4))%R by lra.
    rewrite Rpower_Ropp. apply Rinv_lt_contravar; [| exact sixteen_below].
    pose proof sixteen_below. lra.
  - replace (-24 / 20)%R with (- (6 / 5))%R by lra.
    rewrite Rpower_Ropp. apply Rinv_lt_contravar; [| exact sixteen_above].
    assert (0 < Rpower 10 (6 / 5))%R by (unfold Rpower; apply exp_pos).
    lra.
Qed.

(** ** The scheduler *)

Lemma filter_all (A : Type) (p : A -> bool) (l : list A) :
  existsb p l = false -> List.filter (fun x => negb (p x)) l = l.
Proof.
  induction l as [|x l IH]; simpl; [reflexivity |].
  destruct (p x); simpl; [discriminate |].
  intros H. f_equal. apply IH, H.
Qed.

Lemma filter_none (A : Type) (p : A -> bool) (l : list A) :
  List.filter p (List.filter (fun x => negb (p x)) l) = [].
Proof.
  induction l as [|x l IH]; simpl; [reflexivity |].
  destruct (p x) eqn:E; simpl; [exact IH |].
  rewrite E. exact IH.
Qed.

Lemma RemoveByTag_jobs (tag : string) (sch : Scheduler) :
  jobs (fst (RemoveByTag tag sch)) =
  List.filter (fun j => negb (hasTag tag j)) (jobs sch).
Proof.
  unfold RemoveByTag. destruct (existsb (hasTag tag) (jobs sch)) eqn:E; simpl.
  - reflexivity.
  - symmetry. apply filter_all, E.
Qed.

Lemma RemoveByTag_nextId (tag : string) (sch : Scheduler) :
  nextId (fst (RemoveByTag tag sch)) = nextId sch.
Proof. unfold RemoveByTag. destruct (existsb _ _); reflexivity. Qed.

Lemma RemoveByTag_running (tag : string) (sch : Scheduler) :
  running (fst (RemoveByTag tag sch)) = running sch.
Proof. unfold RemoveByTag. destruct (existsb _ _); reflexivity. Qed.

(** After [RemoveByTag "adhan"] the daily group is empty. *)
Lemma adhanJobs_RemoveByTag (sch : Scheduler) :
  adhanJobs (fst (RemoveByTag "adhan" sch)) = [].
Proof. unfold adhanJobs. rewrite RemoveByTag_jobs. apply filter_none. Qed.

Lemma RemoveByTag_idempotent (tag : string) (sch : Scheduler) :
  fst (RemoveByTag tag (fst (RemoveByTag tag sch))) = fst (RemoveByTag tag sch).
Proof.
  set (sch1 := fst (RemoveByTag tag sch)).
  assert (H : existsb (hasTag tag) (jobs sch1) = false).
  { unfold sch1. rewrite RemoveByTag_jobs.
    induction (jobs sch) as [|j l IH]; simpl; [reflexivity |].
    destruct (hasTag tag j) eqn:E; simpl; [exact IH |].
    rewrite E. exact IH. }
  unfold RemoveByTag at 1. rewrite H. reflexivity.
Qed.

Lemma wfScheduler_NewScheduler : wfScheduler NewScheduler.
Proof. constructor. Qed.

Lemma wfScheduler_addJob every limit at_ tags task (sch : Scheduler) :
  wfScheduler sch -> wfScheduler (addJob every limit at_ tags task sch).
Proof.
  unfold wfScheduler, addJob. cbn [jobs nextId]. intros H.
  rewrite List.Forall_forall in *. intros j Hj.
  apply in_app_or in Hj. destruct Hj as [Hj | [<- | []]].
  - specialize (H j Hj). lia.
  - cbn. lia.
Qed.

Lemma wfScheduler_RemoveByTag (tag : string) (sch : Scheduler) :
  wfScheduler sch -> wfScheduler (fst (RemoveByTag tag sch)).
Proof.
  unfold wfScheduler. rewrite RemoveByTag_jobs, RemoveByTag_nextId.
  intros H. rewrite List.Forall_forall in *. intros j Hj.
  apply List.filter_In in Hj. apply H, Hj.
Qed.

(** ** The daily rebuild *)

Section Rebuild.

Variable L : Library.

Lemma getCalculationMethod_state (m : string) (s : State) :
  fst (getCalculationMethod m s) = s \/
  fst (getCalculationMethod m s) = emit (Logged (MsgUnknownMethod m)) s.
Proof.
  unfold getCalculationMethod.
  repeat (destruct (String.eqb m _); [left; reflexivity |]).
  right. reflexivity.
Qed.

Lemma getCalculationMethod_scheduler (m : string) (s : State) :
  scheduler (fst (getCalculationMethod m s)) = scheduler s.
Proof. destruct (getCalculationMethod_state m s) as [-> | ->]; reflexivity. Qed.

Lemma getCalculationMethod_config (m : string) (s : State) :
  config (fst (getCalculationMethod m s)) = config s.
Proof. destruct (getCalculationMethod_state m s) as [-> | ->]; reflexivity. Qed.

Lemma getCalculationMethod_coordinates (m : string) (s : State) :
  coordinates (fst (getCalculationMethod m s)) = coordinates s.
Proof. destruct (getCalculationMethod_state m s) as [-> | ->]; reflexivity. Qed.

Lemma getCalculationMethod_clock (m : string) (s : State) :
  clock (fst (getCalculationMethod m s)) = clock s.
Proof. destruct (getCalculationMethod_state m s) as [-> | ->]; reflexivity. Qed.

Lemma getCalculationMethod_fs (m : string) (s : State) :
  fs (fst (getCalculationMethod m s)) = fs s.
Proof. destruct (getCalculationMethod_state m s) as [-> | ->]; reflexivity. Qed.

(** The computation reads the coordinates and the clock only. *)
Lemma computePrayerTimes_ext (method : calc.CalculationMethod) (s1 s2 : State) :
  coordinates s1 = coordinates s2 -> clock s1 = clock s2 ->
  computePrayerTimes L method s1 = computePrayerTimes L method s2.
Proof. unfold computePrayerTimes. intros -> ->. reflexivity. Qed.

(** [updatePrayerTimes], by the outcome of its computation. *)
Lemma updatePrayerTimes_unfold (s : State) :
  updatePrayerTimes L s =
  let s1 := fst (getCalculationMethod (CalculationMethod (config s)) s) in
  match todaysTimes L s with
  | inr msg => emit (Logged msg) s1
  | inl pt =>
    scheduleAll pt
      (set_scheduler (fst (RemoveByTag "adhan" (scheduler s1)))
         (printPrayerTimes pt s1))
  end.
Proof.
  unfold updatePrayerTimes, todaysTimes.
  destruct (getCalculationMethod (CalculationMethod (config s)) s) as [s1 method] eqn:E.
  cbn [fst snd].
  assert (Hs1 : s1 = fst (getCalculationMethod (CalculationMethod (config s)) s))
    by (rewrite E; reflexivity).
  rewrite (computePrayerTimes_ext method s s1).
  - reflexivity.
  - rewrite Hs1. symmetry. apply getCalculationMethod_coordinates.
  - rewrite Hs1. symmetry. apply getCalculationMethod_clock.
Qed.

(** A failed computation: nothing but a log line. *)
Lemma updatePrayerTimes_failure (s : State) (msg : Msg) :
  todaysTimes L s = inr msg ->
  scheduler (updatePrayerTimes L s) = scheduler s /\
  config (updatePrayerTimes L s) = config s /\
  coordinates (updatePrayerTimes L s) = coordinates s.
Proof.
  intros H. rewrite updatePrayerTimes_unfold, H. cbn zeta. cbn [emit scheduler config coordinates].
  rewrite getCalculationMethod_scheduler, getCalculationMethod_config,
    getCalculationMethod_coordinates. auto.
Qed.

(** The scheduler after a successful rebuild: the jobs not tagged "adhan",
    then five new jobs. *)
Lemma updatePrayerTimes_success_jobs (s : State) (pt : calc.PrayerTimes) :
  todaysTimes L s = inl pt ->
  let n := nextId (scheduler s) in
  let job i name t :=
    {| job_id := i; job_every := 1; job_at := Format_150405 t;
       job_tags := ["adhan"]; job_limit := Some 1; job_task := AdhanTask name t |} in
  jobs (scheduler (updatePrayerTimes L s)) =
    (List.filter (fun j => negb (hasTag "adhan" j)) (jobs (scheduler s)) ++
     [ job n "fajr" (calc.Fajr pt);
       job (S n) "dhuhr" (calc.Dhuhr pt);
       job (S (S n)) "asr" (calc.Asr pt);
       job (S (S (S n))) "maghrib" (calc.Maghrib pt);
       job (S (S (S (S n)))) "isha" (calc.Isha pt) ])%list /\
  nextId (scheduler (updatePrayerTimes L s)) = S (S (S (S (S n)))) /\
  running (scheduler (updatePrayerTimes L s)) = running (scheduler s).
Proof.
  intros H. rewrite updatePrayerTimes_unfold, H. cbn zeta.
  set (s1 := fst (getCalculationMethod (CalculationMethod (config s)) s)).
  unfold scheduleAll, scheduleAdhan, printPrayerTimes, addJob.
  cbn [scheduler set_scheduler emit jobs nextId running].
  rewrite RemoveByTag_jobs, RemoveByTag_nextId, RemoveByTag_running.
  unfold s1. rewrite getCalculationMethod_scheduler.
  repeat rewrite <- app_assoc. cbn [app]. auto.
Qed.

End Rebuild.

Section ReplacedGroup.

Variable L : Library.

Lemma armedFor_intro (pt : calc.PrayerTimes) (i : nat) (name : string) (t : Time) :
  prayerTimeOf pt name = Some t ->
  armedFor pt {| job_id := i; job_every := 1; job_at := Format_150405 t;
                 job_tags := ["adhan"]; job_limit := Some 1;
                 job_task := AdhanTask name t |}.
Proof.
  intros H. unfold armedFor. cbn.
  repeat split. exists name, t. auto.
Qed.

(** The daily group after a successful rebuild. *)
Lemma updatePrayerTimes_success_group (s : State) (pt : calc.PrayerTimes) :
  todaysTimes L s = inl pt ->
  let n := nextId (scheduler s) in
  adhanJobs (scheduler (updatePrayerTimes L s)) =
    [ {| job_id := n; job_every := 1; job_at := Format_150405 (calc.Fajr pt);
         job_tags := ["adhan"]; job_limit := Some 1;
         job_task := AdhanTask "fajr" (calc.Fajr pt) |};
      {| job_id := S n; job_every := 1; job_at := Format_150405 (calc.Dhuhr pt);
         job_tags := ["adhan"]; job_limit := Some 1;
         job_task := AdhanTask "dhuhr" (calc.Dhuhr pt) |};
      {| job_id := S (S n); job_every := 1; job_at := Format_150405 (calc.Asr pt);
         job_tags := ["adhan"]; job_limit := Some 1;
         job_task := AdhanTask "asr" (calc.Asr pt) |};
      {| job_id := S (S (S n)); job_every := 1;
         job_at := Format_150405 (calc.Maghrib pt);
         job_tags := ["adhan"]; job_limit := Some 1;
         job_task := AdhanTask "maghrib" (calc.Maghrib pt) |};
      {| job_id := S (S (S (S n))); job_every := 1;
         job_at := Format_150405 (calc.Isha pt);
         job_tags := ["adhan"]; job_limit := Some 1;
         job_task := AdhanTask "isha" (calc.Isha pt) |} ].
Proof.
  intros Hpt n.
  destruct (updatePrayerTimes_success_jobs L s pt Hpt) as (Hjobs & _ & _).
  cbn zeta in Hjobs. unfold adhanJobs. rewrite Hjobs, List.filter_app, filter_none.
  reflexivity.
Qed.

(** Five jobs, one per daily prayer, each armed for the computed times. *)
Lemma updatePrayerTimes_success_armed (s : State) (pt : calc.PrayerTimes) :
  todaysTimes L s = inl pt ->
  map jobPrayer (adhanJobs (scheduler (updatePrayerTimes L s))) = map Some dailyPrayers /\
  Forall (armedFor pt) (adhanJobs (scheduler (updatePrayerTimes L s))).
Proof.
  intros Hpt. rewrite (updatePrayerTimes_success_group s pt Hpt). split.
  - reflexivity.
  - repeat constructor; apply armedFor_intro; reflexivity.
Qed.

(** C2. After a rebuild whose computation succeeded with the times [pt],
    the jobs tagged "adhan" are five, one per daily prayer in the order
    fajr, dhuhr, asr, maghrib, isha; each is a one-shot job whose trigger
    time is the time of day computed for its prayer; none of them is a job
    the scheduler held before the rebuild, and the jobs without the tag are
    the ones held before. *)
Theorem updatePrayerTimes_replaces_group (s : State) (pt : calc.PrayerTimes) :
  wfScheduler (scheduler s) ->
  todaysTimes L s = inl pt ->
  let after := scheduler (updatePrayerTimes L s) in
  map jobPrayer (adhanJobs after) = map Some dailyPrayers /\
  Forall (armedFor pt) (adhanJobs after) /\
  (forall j old, In j (adhanJobs after) -> In old (jobs (scheduler s)) ->
                 job_id j <> job_id old) /\
  (forall old, In old (adhanJobs (scheduler s)) -> ~ In old (jobs after)) /\
  List.filter (fun j => negb (hasTag "adhan" j)) (jobs after) =
  List.filter (fun j => negb (hasTag "adhan" j)) (jobs (scheduler s)).
Proof.
  intros Hwf Hpt after.
  destruct (updatePrayerTimes_success_jobs L s pt Hpt) as (Hjobs & _ & _).
  cbn zeta in Hjobs.
  set (n := nextId (scheduler s)) in *.
  set (kept := List.filter (fun j => negb (hasTag "adhan" j)) (jobs (scheduler s))) in *.
  assert (Hkept : List.filter (hasTag "adhan") kept = [])
    by apply filter_none.
  assert (Hkept' : List.filter (fun j => negb (hasTag "adhan" j)) kept = kept).
  { unfold kept. clear. induction (jobs (scheduler s)) as [|j l IH]; simpl; [reflexivity |].
    destruct (hasTag "adhan" j) eqn:E; simpl; [exact IH |].
    rewrite E. simpl. f_equal. exact IH. }
  pose proof (updatePrayerTimes_success_group s pt Hpt) as Hadhan.
  cbn zeta in Hadhan. fold n after in Hadhan.
  assert (Hfresh : forall j, In j (adhanJobs after) -> n <= job_id j).
  { rewrite Hadhan. intros j Hj. simpl in Hj.
    destruct Hj as [<-|[<-|[<-|[<-|[<-|[]]]]]]; cbn; lia. }
  assert (Hold : forall old, In old (jobs (scheduler s)) -> job_id old < n).
  { intros old Hin. unfold wfScheduler in Hwf.
    rewrite List.Forall_forall in Hwf. apply Hwf, Hin. }
  split; [| split; [| split; [| split]]].
  - apply (updatePrayerTimes_success_armed s pt Hpt).
  - apply (updatePrayerTimes_success_armed s pt Hpt).
  - intros j old Hj Hin. specialize (Hfresh j Hj). specialize (Hold old Hin). lia.
  - intros old Hin Hafter.
    unfold adhanJobs in Hin. apply List.filter_In in Hin. destruct Hin as [Hin Htag].
    unfold after in Hafter. rewrite Hjobs in Hafter.
    apply in_app_or in Hafter. destruct Hafter as [Hk | Hnew].
    + unfold kept in Hk. apply List.filter_In in Hk. destruct Hk as [_ Hk].
      rewrite Htag in Hk. discriminate.
    + assert (Hj : In old (adhanJobs after)) by (rewrite Hadhan; exact Hnew).
      specialize (Hfresh old Hj). specialize (Hold old Hin). lia.
  - unfold after. rewrite Hjobs, List.filter_app, Hkept'. cbn. apply app_nil_r.
Qed.

End ReplacedGroup.

Lemma wfScheduler_armed : wfScheduler (scheduler Scenario.armed).
Proof.
  unfold wfScheduler. cbn.
  repeat (constructor; [cbn; lia |]). constructor.
Qed.

Lemma updatePrayerTimes_replaces_group_witness :
  let after := scheduler (updatePrayerTimes Scenario.lib Scenario.armed) in
  map jobPrayer (adhanJobs after) = map Some dailyPrayers /\
  Forall (armedFor Scenario.timesOf2March) (adhanJobs after) /\
  (forall j old, In j (adhanJobs after) -> In old (jobs (scheduler Scenario.armed)) ->
                 job_id j <> job_id old) /\
  (forall old, In old (adhanJobs (scheduler Scenario.armed)) -> ~ In old (jobs after)) /\
  List.filter (fun j => negb (hasTag "adhan" j)) (jobs after) =
  List.filter (fun j => negb (hasTag "adhan" j)) (jobs (scheduler Scenario.armed)).
Proof.
  apply (updatePrayerTimes_replaces_group Scenario.lib Scenario.armed Scenario.timesOf2March).
  - exact wfScheduler_armed.
  - reflexivity.
Defined.

(** The trigger times of the daily group after the rebuild of 2 March. *)
Example rebuild_2_March :
  map job_at (adhanJobs (scheduler (updatePrayerTimes Scenario.lib Scenario.armed))) =
  ["05:02:00"; "12:24:00"; "15:13:00"; "17:47:00"; "19:11:00"].
Proof. reflexivity. Qed.

Section FailedRebuild.

Variable L : Library.

Lemma todaysTimes_set_scheduler (sch : Scheduler) (s : State) :
  todaysTimes L (set_scheduler sch s) = todaysTimes L s.
Proof.
  unfold todaysTimes. cbn [config set_scheduler].
  set (m := CalculationMethod (config s)).
  assert (Hm : snd (getCalculationMethod m (set_scheduler sch s)) =
               snd (getCalculationMethod m s)).
  { unfold getCalculationMethod.
    repeat (destruct (String.eqb m _); [reflexivity |]). reflexivity. }
  rewrite Hm. apply computePrayerTimes_ext; reflexivity.
Qed.

(** A rebuild started by the midnight job or by [main] whose computation
    fails keeps the daily group as it was. *)
Lemma updatePrayerTimes_failure_keeps_group (s : State) (msg : Msg) :
  todaysTimes L s = inr msg ->
  adhanJobs (scheduler (updatePrayerTimes L s)) = adhanJobs (scheduler s).
Proof.
  intros H. destruct (updatePrayerTimes_failure L s msg H) as (-> & _). reflexivity.
Qed.

(** A rebuild started by [onUpdateSettings]: the daily group is removed
    before [updatePrayerTimes] is called, so a failed computation leaves the
    group empty. *)
Lemma onUpdateSettings_failure_empties_group (s s1 : State)
    (c : option util.Coordinates) (msg : Msg) :
  loadConfig L s = (s1, None) ->
  util_NewCoordinates L (Lan (config s1)) (Lon (config s1)) = (c, None) ->
  todaysTimes L (set_coordinates c s1) = inr msg ->
  adhanJobs (scheduler (onUpdateSettings L s)) = [].
Proof.
  intros Hload Hc Hfail. unfold onUpdateSettings. rewrite Hload, Hc.
  set (s2 := set_coordinates c s1) in *.
  set (s3 := set_scheduler (fst (RemoveByTag "adhan" (scheduler s2))) s2).
  assert (H3 : todaysTimes L s3 = inr msg)
    by (unfold s3; rewrite todaysTimes_set_scheduler; exact Hfail).
  rewrite (updatePrayerTimes_failure_keeps_group s3 msg H3).
  unfold s3. cbn [scheduler set_scheduler]. apply adhanJobs_RemoveByTag.
Qed.

Lemma getCalculationMethod_set_scheduler (m : string) (sch : Scheduler) (s : State) :
  fst (getCalculationMethod m (set_scheduler sch s)) =
  set_scheduler sch (fst (getCalculationMethod m s)).
Proof.
  unfold getCalculationMethod.
  repeat (destruct (String.eqb m _); [reflexivity |]). reflexivity.
Qed.

(** When the computation succeeds, the removal in [onUpdateSettings] makes
    no difference: [updatePrayerTimes] removes the group itself. *)
Lemma early_removal_redundant (s : State) (pt : calc.PrayerTimes) :
  todaysTimes L s = inl pt ->
  updatePrayerTimes L (set_scheduler (fst (RemoveByTag "adhan" (scheduler s))) s) =
  updatePrayerTimes L s.
Proof.
  intros H. rewrite !updatePrayerTimes_unfold, todaysTimes_set_scheduler, H.
  cbn zeta. cbn [config set_scheduler].
  rewrite getCalculationMethod_set_scheduler. f_equal.
  set (s1 := fst (getCalculationMethod (CalculationMethod (config s)) s)).
  set (removed := fst (RemoveByTag "adhan" (scheduler s))).
  assert (Hs1 : scheduler s1 = scheduler s) by apply getCalculationMethod_scheduler.
  change (scheduler (set_scheduler removed s1)) with removed.
  rewrite Hs1. fold removed.
  replace (fst (RemoveByTag "adhan" removed)) with removed
    by (symmetry; apply RemoveByTag_idempotent).
  reflexivity.
Qed.

End FailedRebuild.

(** C1, at the settings path. On the morning of 2 March the five jobs of the
    daily group are armed; the configuration is reloaded while the prayer
    times cannot be computed. The rebuild through [onUpdateSettings] leaves
    no job of the daily group, where the same failure in [updatePrayerTimes]
    alone (midnight, start of the process) leaves the five jobs armed. *)
Theorem onUpdateSettings_failed_rebuild_empties_group :
  (exists msg, todaysTimes Scenario.polarLib Scenario.armed = inr msg) /\
  map jobPrayer (adhanJobs (scheduler Scenario.armed)) = map Some dailyPrayers /\
  adhanJobs (scheduler (updatePrayerTimes Scenario.polarLib Scenario.armed)) =
    adhanJobs (scheduler Scenario.armed) /\
  adhanJobs (scheduler (onUpdateSettings Scenario.polarLib Scenario.armed)) = [] /\
  trace (onUpdateSettings Scenario.polarLib Scenario.armed) =
    (trace Scenario.armed ++
     [Logged (MsgErrorCalculating (LibError "cannot compute prayer times"))])%list.
Proof.
  split; [| split; [| split; [| split]]].
  - eexists. reflexivity.
  - reflexivity.
  - reflexivity.
  - reflexivity.
  - reflexivity.
Qed.

(** ** The playback chain *)

Section Playback.

Variable L : Library.

(** [playAudio] by its outcome: an error and the state as it was, or the
    sound rendered at the volume of [audioType]. *)
Lemma playAudio_cases (filepath audioType : string) (s : State) :
  (exists err, playAudio L filepath audioType s = (s, Some err)) \/
  (exists streamer,
     playAudio L filepath audioType s =
     (emit (Played filepath
              (volumeAdjusted streamer (getVolumeForPrayer (config s) audioType))) s,
      None)).
Proof.
  unfold playAudio.
  destruct (os_Open L filepath) as [f | e]; [| left; eauto].
  destruct (mp3_Decode L f) as [[streamer format] | e]; [| left; eauto].
  destruct (speaker_Init L _ _) as [e |]; [left; eauto | right; eauto].
Qed.

(** Whether [playAudio] fails does not depend on the program state. *)
Lemma playAudio_error_state (filepath audioType : string) (s1 s2 : State) :
  snd (playAudio L filepath audioType s1) = snd (playAudio L filepath audioType s2).
Proof.
  unfold playAudio.
  destruct (os_Open L filepath) as [f | e]; [| reflexivity].
  destruct (mp3_Decode L f) as [[streamer format] | e]; [| reflexivity].
  destruct (speaker_Init L _ _) as [e |]; reflexivity.
Qed.

(** The errors of [playAudio]: the file cannot be opened or decoded, or the
    speaker cannot be initialised. *)
Lemma playAudio_errors (filepath audioType : string) (s : State) (err : Error) :
  snd (playAudio L filepath audioType s) = Some err ->
  exists cause,
    err = Errorf "error opening audio file" cause \/
    err = Errorf "error decoding MP3" cause \/
    err = Errorf "error initializing speaker" cause.
Proof.
  unfold playAudio.
  destruct (os_Open L filepath) as [f | e];
    [| cbn; intros [= <-]; eauto].
  destruct (mp3_Decode L f) as [[streamer format] | e];
    [| cbn; intros [= <-]; eauto].
  destruct (speaker_Init L _ _) as [e |]; cbn; [intros [= <-]; eauto | discriminate].
Qed.

Lemma skipn_app_exact (A : Type) (l k : list A) : skipn (length l) (l ++ k) = k.
Proof. induction l as [|x l IH]; [reflexivity | exact IH]. Qed.

(** The chain when the primary sound fails: the announcement line, then the
    logged error. *)
Lemma adhanJob_primary_failure (prayerName : string) (prayerTime : Time)
    (s : State) (err : Error) :
  snd (playAudio L (audioFile prayerName) prayerName s) = Some err ->
  adhanJob L prayerName prayerTime s =
  emit (Logged (MsgErrorPlaying prayerName err))
       (emit (Stdout (MsgPlaying prayerName prayerTime)) s).
Proof.
  intros H. unfold adhanJob.
  set (s1 := emit (Stdout (MsgPlaying prayerName prayerTime)) s).
  rewrite (playAudio_error_state _ _ s s1) in H.
  destruct (playAudio_cases (audioFile prayerName) prayerName s1) as [[e He] | [st He]];
    rewrite He in H |- *; cbn in H.
  - injection H as ->. reflexivity.
  - discriminate.
Qed.

(** The chain when the primary sound succeeds. *)
Lemma adhanJob_primary_success (prayerName : string) (prayerTime : Time) (s : State) :
  snd (playAudio L (audioFile prayerName) prayerName s) = None ->
  exists streamer,
    let primary :=
      Played (audioFile prayerName)
        (volumeAdjusted streamer (getVolumeForPrayer (config s) prayerName)) in
    let s2 := emit primary (emit (Stdout (MsgPlaying prayerName prayerTime)) s) in
    adhanJob L prayerName prayerTime s =
    if negb (String.eqb prayerName "test") && AdhanPrayer (config s) then
      let s3 := emit (Stdout (MsgPlayingPrayerAfter prayerName)) s2 in
      match playAudio L (audioFile "prayer") "prayer" s3 with
      | (s4, Some err) => emit (Logged (MsgErrorPlayingPrayerAfter prayerName err)) s4
      | (s4, None) => s4
      end
    else s2.
Proof.
  intros H. unfold adhanJob.
  set (s1 := emit (Stdout (MsgPlaying prayerName prayerTime)) s).
  rewrite (playAudio_error_state _ _ s s1) in H.
  destruct (playAudio_cases (audioFile prayerName) prayerName s1) as [[e He] | [st He]];
    rewrite He in H |- *; cbn in H; [discriminate |].
  exists st. reflexivity.
Qed.

(** What the chain adds to the output, case by case. *)
Lemma chainOutput_cases (prayerName : string) (prayerTime : Time) (s : State) :
  let line := Stdout (MsgPlaying prayerName prayerTime) in
  let after := Stdout (MsgPlayingPrayerAfter prayerName) in
  match snd (playAudio L (audioFile prayerName) prayerName s) with
  | Some err =>
    chainOutput L prayerName prayerTime s = [line; Logged (MsgErrorPlaying prayerName err)]
  | None =>
    exists streamer,
      let primary :=
        Played (audioFile prayerName)
          (volumeAdjusted streamer (getVolumeForPrayer (config s) prayerName)) in
      if negb (String.eqb prayerName "test") && AdhanPrayer (config s) then
        exists last,
          chainOutput L prayerName prayerTime s = [line; primary; after; last] /\
          ((exists streamer',
              last = Played (audioFile "prayer")
                       (volumeAdjusted streamer' (VolAdhanPrayer (Volume (config s))))) \/
           (exists err, last = Logged (MsgErrorPlayingPrayerAfter prayerName err)))
      else chainOutput L prayerName prayerTime s = [line; primary]
  end.
Proof.
  intros line after.
  destruct (snd (playAudio L (audioFile prayerName) prayerName s)) as [err |] eqn:E.
  - unfold chainOutput. rewrite (adhanJob_primary_failure _ prayerTime _ _ E).
    cbn [trace emit]. rewrite <- app_assoc. apply skipn_app_exact.
  - destruct (adhanJob_primary_success prayerName prayerTime s E) as [st Hst].
    exists st. cbn zeta in Hst |- *. unfold chainOutput. rewrite Hst. clear Hst.
    destruct (negb (String.eqb prayerName "test") && AdhanPrayer (config s)).
    + match goal with
      | |- context [playAudio L ?f ?a ?s3] =>
          destruct (playAudio_cases f a s3) as [[e He] | [st' He]]; rewrite He
      end.
      * eexists. split.
        -- cbn [trace emit]. rewrite <- !app_assoc. apply skipn_app_exact.
        -- right. eauto.
      * eexists. split.
        -- cbn [trace emit]. rewrite <- !app_assoc. apply skipn_app_exact.
        -- left. exists st'. reflexivity.
    + cbn [trace emit]. rewrite <- !app_assoc. apply skipn_app_exact.
Qed.

(** The guard of the chain: the secondary sound is started exactly when the
    primary sound was played, the name is not "test", and the prayer after
    the adhan is enabled. *)
Lemma secondaryStarted_iff (prayerName : string) (prayerTime : Time) (s : State) :
  secondaryStarted prayerName (chainOutput L prayerName prayerTime s) <->
  snd (playAudio L (audioFile prayerName) prayerName s) = None /\
  prayerName <> "test" /\
  AdhanPrayer (config s) = true.
Proof.
  pose proof (chainOutput_cases prayerName prayerTime s) as H. cbn zeta in H.
  unfold secondaryStarted.
  destruct (snd (playAudio L (audioFile prayerName) prayerName s)) as [err |].
  - rewrite H. split.
    + intros [Hin | [Hin | []]]; discriminate Hin.
    + intros [Hn _]. discriminate Hn.
  - destruct H as [st H].
    destruct (String.eqb prayerName "test") eqn:Et; cbn [negb andb] in H.
    + apply String.eqb_eq in Et. rewrite H. split.
      * intros [Hin | [Hin | []]]; discriminate Hin.
      * intros (_ & Hne & _). contradiction.
    + apply String.eqb_neq in Et.
      destruct (AdhanPrayer (config s)).
      * destruct H as (last & -> & _). split.
        -- intros _. auto.
        -- intros _. right. right. left. reflexivity.
      * rewrite H. split.
        -- intros [Hin | [Hin | []]]; discriminate Hin.
        -- intros (_ & _ & Hf). discriminate Hf.
Qed.

(** The chain changes nothing but the output. *)
Lemma adhanJob_frame (prayerName : string) (prayerTime : Time) (s : State) :
  config (adhanJob L prayerName prayerTime s) = config s /\
  coordinates (adhanJob L prayerName prayerTime s) = coordinates s /\
  scheduler (adhanJob L prayerName prayerTime s) = scheduler s /\
  fs (adhanJob L prayerName prayerTime s) = fs s /\
  clock (adhanJob L prayerName prayerTime s) = clock s.
Proof.
  unfold adhanJob.
  set (s1 := emit (Stdout (MsgPlaying prayerName prayerTime)) s).
  destruct (playAudio_cases (audioFile prayerName) prayerName s1) as [[e He] | [st He]];
    rewrite He; [cbn; auto |].
  destruct (negb (String.eqb prayerName "test") && AdhanPrayer _); [| cbn; auto].
  match goal with
  | |- context [playAudio L ?f ?a ?s3] =>
      destruct (playAudio_cases f a s3) as [[e He'] | [st' He']]; rewrite He'
  end; cbn; auto.
Qed.

(** C7. When the primary sound of a chain cannot be played (the file cannot
    be opened or decoded, or the speaker cannot be initialised), the chain
    prints its announcement line, logs the error and returns: no sound is
    played and the secondary sound is not started; the configuration, the
    coordinates and the scheduler, with all its jobs and still running, are
    as before, also when the chain is run as a job of the scheduler. *)
Theorem adhanJob_primary_failure_is_logged (prayerName : string)
    (prayerTime : Time) (s : State) (err : Error) :
  snd (playAudio L (audioFile prayerName) prayerName s) = Some err ->
  let s' := adhanJob L prayerName prayerTime s in
  chainOutput L prayerName prayerTime s =
    [Stdout (MsgPlaying prayerName prayerTime); Logged (MsgErrorPlaying prayerName err)] /\
  trace s' = (trace s ++ chainOutput L prayerName prayerTime s)%list /\
  ~ secondaryStarted prayerName (chainOutput L prayerName prayerTime s) /\
  List.filter isPlayed (chainOutput L prayerName prayerTime s) = [] /\
  config s' = config s /\ coordinates s' = coordinates s /\ scheduler s' = scheduler s /\
  (forall j, job_task j = AdhanTask prayerName prayerTime ->
             scheduler (fire L j s) = scheduler s /\
             config (fire L j s) = config s) /\
  (exists cause,
     err = Errorf "error opening audio file" cause \/
     err = Errorf "error decoding MP3" cause \/
     err = Errorf "error initializing speaker" cause).
Proof.
  intros H s'.
  pose proof (chainOutput_cases prayerName prayerTime s) as Hout. cbn zeta in Hout.
  rewrite H in Hout.
  destruct (adhanJob_frame prayerName prayerTime s) as (Hc & Hco & Hs & _ & _).
  split; [exact Hout |].
  split.
  { unfold s'. rewrite Hout, (adhanJob_primary_failure _ prayerTime _ _ H).
    cbn [trace emit]. rewrite <- app_assoc. reflexivity. }
  split.
  { rewrite secondaryStarted_iff, H. intros [Hn _]. discriminate Hn. }
  split; [rewrite Hout; reflexivity |].
  split; [exact Hc |]. split; [exact Hco |]. split; [exact Hs |].
  split.
  { intros j Hj. unfold fire.
    destruct (running (scheduler s) && _); [| auto].
    rewrite Hj. cbn [runTask]. auto. }
  exact (playAudio_errors _ _ _ _ H).
Qed.

End Playback.

Lemma adhanJob_primary_failure_is_logged_witness :
  let err := Errorf "error opening audio file" (LibError "no such file or directory") in
  let s' := adhanJob Scenario.muteLib "fajr" (Scenario.onDay 2 5 2) Scenario.armed in
  chainOutput Scenario.muteLib "fajr" (Scenario.onDay 2 5 2) Scenario.armed =
    [Stdout (MsgPlaying "fajr" (Scenario.onDay 2 5 2)); Logged (MsgErrorPlaying "fajr" err)] /\
  scheduler s' = scheduler Scenario.armed.
Proof.
  intros err s'.
  destruct (adhanJob_primary_failure_is_logged Scenario.muteLib "fajr"
              (Scenario.onDay 2 5 2) Scenario.armed err eq_refl)
    as (Hout & _ & _ & _ & _ & _ & Hs & _).
  split; [exact Hout | exact Hs].
Defined.

(** ** The names the chain is run for *)

Section ChainNames.

Variable L : Library.

(** The chain when the primary sound was played and the guard is open, by
    the outcome of the secondary sound. *)
Lemma chainOutput_secondary (prayerName : string) (prayerTime : Time) (s : State) :
  snd (playAudio L (audioFile prayerName) prayerName s) = None ->
  prayerName <> "test" ->
  AdhanPrayer (config s) = true ->
  exists streamer,
    let line := Stdout (MsgPlaying prayerName prayerTime) in
    let primary :=
      Played (audioFile prayerName)
        (volumeAdjusted streamer (getVolumeForPrayer (config s) prayerName)) in
    let after := Stdout (MsgPlayingPrayerAfter prayerName) in
    match snd (playAudio L (audioFile "prayer") "prayer" s) with
    | Some err =>
      chainOutput L prayerName prayerTime s =
      [line; primary; after; Logged (MsgErrorPlayingPrayerAfter prayerName err)]
    | None =>
      exists streamer',
        chainOutput L prayerName prayerTime s =
        [line; primary; after;
         Played "audio/prayer.mp3"
           (volumeAdjusted streamer' (VolAdhanPrayer (Volume (config s))))]
    end.
Proof.
  intros Hprimary Hname Hflag.
  destruct (adhanJob_primary_success L prayerName prayerTime s Hprimary) as [st Hst].
  exists st. cbn zeta in Hst |- *.
  apply String.eqb_neq in Hname. rewrite Hname, Hflag in Hst. cbn [negb andb] in Hst.
  unfold chainOutput. rewrite Hst. clear Hst.
  match goal with
  | |- context [playAudio L ?f ?a ?s3] =>
      rewrite (playAudio_error_state L f a s s3);
      destruct (playAudio_cases L f a s3) as [[e He] | [st' He]]; rewrite He
  end; cbn [snd].
  - cbn [trace emit]. rewrite <- !app_assoc. apply skipn_app_exact.
  - exists st'. cbn [trace emit]. rewrite <- !app_assoc. apply skipn_app_exact.
Qed.

Lemma dailyChains_RemoveByTag (tag : string) (sch : Scheduler) :
  dailyChains sch -> dailyChains (fst (RemoveByTag tag sch)).
Proof.
  intros H j name Hj. rewrite RemoveByTag_jobs in Hj.
  apply List.filter_In in Hj. apply H, Hj.
Qed.

(** [scheduleAdhan] is called with the five names only ([updatePrayerTimes],
    the one caller that is not commented out): a rebuild adds chains for
    daily prayers and no other. *)
Lemma dailyChains_updatePrayerTimes (s : State) :
  dailyChains (scheduler s) -> dailyChains (scheduler (updatePrayerTimes L s)).
Proof.
  intros H. destruct (todaysTimes L s) as [pt | msg] eqn:E.
  - destruct (updatePrayerTimes_success_jobs L s pt E) as (Hjobs & _).
    cbn zeta in Hjobs. intros j name Hj. rewrite Hjobs in Hj.
    apply in_app_or in Hj. destruct Hj as [Hj | Hj].
    + apply List.filter_In in Hj. apply H, Hj.
    + cbn [In] in Hj. intros Hp.
      destruct Hj as [<- | [<- | [<- | [<- | [<- | []]]]]];
        cbn in Hp; injection Hp as <-; cbn; tauto.
  - destruct (updatePrayerTimes_failure L s msg E) as (-> & _). exact H.
Qed.

Lemma dailyChains_onUpdateSettings (s : State) :
  dailyChains (scheduler s) -> dailyChains (scheduler (onUpdateSettings L s)).
Proof.
  intros H. unfold onUpdateSettings, loadConfig.
  destruct (fs_read (fs s)) as [text | e]; [| exact H].
  destruct (toml_parse L text) as [table | e]; [| exact H].
  destruct (toml_unify L table (config s)) as [c [e |]]; [exact H |].
  cbn [option_map config set_config].
  destruct (util_NewCoordinates L _ _) as [co [e |]]; [exact H |].
  apply dailyChains_updatePrayerTimes. cbn [scheduler set_scheduler].
  apply dailyChains_RemoveByTag, H.
Qed.

Lemma dailyChains_updateSettingsHandler (body : string) (s : State) :
  dailyChains (scheduler s) ->
  dailyChains (scheduler (fst (updateSettingsHandler L body s))).
Proof.
  intros H. unfold updateSettingsHandler, writeConfig.
  destruct (gin_BindJSON L body) as [updates | e]; [| exact H].
  destruct (fs_read (fs s)) as [text | e]; [| exact H].
  destruct (toml_parse L text) as [stored | e]; [| exact H].
  destruct (fs_create (fs s)) as [e |]; [exact H |].
  destruct (toml_Encode L _) as [w [e |]]; [exact H |].
  cbn [fst]. apply dailyChains_onUpdateSettings. exact H.
Qed.

Lemma dailyChains_incoming (i : Incoming) (s : State) :
  dailyChains (scheduler s) -> dailyChains (scheduler (incoming L i s)).
Proof.
  intros H. destruct i as [body | j | now]; cbn [incoming].
  - apply dailyChains_updateSettingsHandler, H.
  - unfold fire. destruct (_ && _); [| exact H].
    destruct (job_task j) as [| name t]; cbn [runTask].
    + apply dailyChains_updatePrayerTimes, H.
    + destruct (adhanJob_frame L name t s) as (_ & _ & -> & _). exact H.
  - exact H.
Qed.

Lemma dailyChains_meanwhile (arrivals : list Incoming) (s : State) :
  dailyChains (scheduler s) -> dailyChains (scheduler (meanwhile L arrivals s)).
Proof.
  unfold meanwhile. revert s.
  induction arrivals as [| i l IH]; intros s H; cbn [fold_left]; [exact H |].
  apply IH, dailyChains_incoming, H.
Qed.

Lemma dailyChains_addJob_update every limit at_ tags (sch : Scheduler) :
  dailyChains sch -> dailyChains (addJob every limit at_ tags UpdateTask sch).
Proof.
  intros H j name Hj. unfold addJob in Hj. cbn [jobs] in Hj.
  apply in_app_or in Hj. destruct Hj as [Hj | [<- | []]]; [apply H, Hj | discriminate].
Qed.

(** From the start of the process on, whatever is served and whichever job
    runs, the scheduler holds chains for the five daily prayers only: no
    chain is ever run for another name. *)
Lemma dailyChains_process (f : FileSystem) (now : Time) (a : Startup)
    (later : list Incoming) (s' : State) :
  mainServing L a (initState f now) = Scheduling s' ->
  dailyChains (scheduler (meanwhile L later s')).
Proof.
  unfold mainServing, loadConfig.
  assert (H0 : dailyChains (scheduler (initState f now))) by (intros j name []).
  destruct (fs_read (fs (initState f now))) as [text | e]; [| discriminate].
  destruct (toml_parse L text) as [table | e]; [| discriminate].
  destruct (toml_unify L table _) as [c [e |]]; [discriminate |].
  cbn [option_map].
  destruct (util_NewCoordinates L _ _) as [co [e |]]; [discriminate |].
  intros [= <-]. apply dailyChains_meanwhile.
  cbn [scheduler startBlocking emit set_scheduler].
  change (dailyChains (StartBlocking ?sch)) with (dailyChains sch).
  apply dailyChains_meanwhile, dailyChains_updatePrayerTimes, dailyChains_meanwhile.
  cbn [scheduler set_scheduler]. apply dailyChains_addJob_update, dailyChains_meanwhile.
  cbn [scheduler set_coordinates]. apply dailyChains_meanwhile. exact H0.
Qed.

(** C4. For every name the program runs the chain for, the five daily
    prayers ([dailyChains_process]), and for the diagnostic name "test":
    the secondary sound is started if and only if the primary sound was
    played, the name is one of the five daily prayers, and
    [config.AdhanPrayer] is set. When it is started, it is the next thing
    after the primary sound: [audio/prayer.mp3] is played at the volume
    configured for it (not at that of the adhan), or the error of playing
    it is logged. *)
Theorem adhanJob_secondary_for_daily_prayers (prayerName : string)
    (prayerTime : Time) (s : State) :
  In prayerName dailyPrayers \/ prayerName = "test" ->
  let out := chainOutput L prayerName prayerTime s in
  (secondaryStarted prayerName out <->
     snd (playAudio L (audioFile prayerName) prayerName s) = None /\
     In prayerName dailyPrayers /\
     AdhanPrayer (config s) = true) /\
  (secondaryStarted prayerName out ->
     exists streamer,
       let line := Stdout (MsgPlaying prayerName prayerTime) in
       let primary :=
         Played (audioFile prayerName)
           (volumeAdjusted streamer (getVolumeForPrayer (config s) prayerName)) in
       let after := Stdout (MsgPlayingPrayerAfter prayerName) in
       match snd (playAudio L (audioFile "prayer") "prayer" s) with
       | Some err =>
         out = [line; primary; after; Logged (MsgErrorPlayingPrayerAfter prayerName err)]
       | None =>
         exists streamer',
           out = [line; primary; after;
                  Played "audio/prayer.mp3"
                    (volumeAdjusted streamer' (VolAdhanPrayer (Volume (config s))))]
       end).
Proof.
  intros Hname out. unfold out.
  assert (Hdaily : prayerName <> "test" <-> In prayerName dailyPrayers).
  { split.
    - intros Hne. destruct Hname as [H | H]; [exact H | contradiction].
    - intros Hin ->. cbn in Hin. intuition discriminate. }
  split.
  - rewrite secondaryStarted_iff, Hdaily. reflexivity.
  - intros Hstarted. apply secondaryStarted_iff in Hstarted.
    destruct Hstarted as (Hprimary & Hne & Hflag).
    exact (chainOutput_secondary prayerName prayerTime s Hprimary Hne Hflag).
Qed.

End ChainNames.

Lemma adhanJob_secondary_for_daily_prayers_witness :
  secondaryStarted "fajr"
    (chainOutput Scenario.lib "fajr" (Scenario.onDay 2 5 2) Scenario.armed) /\
  ~ secondaryStarted "test"
    (chainOutput Scenario.lib "test" (Scenario.onDay 2 5 2) Scenario.armed).
Proof.
  split.
  - destruct (adhanJob_secondary_for_daily_prayers Scenario.lib "fajr"
                (Scenario.onDay 2 5 2) Scenario.armed) as (Hiff & _).
    + left. left. reflexivity.
    + apply Hiff. split; [reflexivity |]. split; [left; reflexivity | reflexivity].
  - destruct (adhanJob_secondary_for_daily_prayers Scenario.lib "test"
                (Scenario.onDay 2 5 2) Scenario.armed) as (Hiff & _).
    + right. reflexivity.
    + intros H. apply Hiff in H. destruct H as (_ & Hin & _).
      destruct Hin as [H | [H | [H | [H | [H | []]]]]]; discriminate H.
Defined.

(** ** The settings endpoint *)

Lemma mergeVolume_union (volumeUpdates currentVolume : Doc) :
  mergeVolume volumeUpdates currentVolume = volumeUpdates ∪ currentVolume.
Proof.
  unfold mergeVolume.
  apply (map_fold_weak_ind (fun r (m : Doc) => r = m ∪ currentVolume)).
  - symmetry. apply (left_id_L ∅ (∪)).
  - intros k v m r _ ->. apply insert_union_l.
Qed.

(** The loop of the handler, key by key: a top-level key other than
    "volume" is overwritten by the update. *)
Lemma mergeSettings_lookup_top (updates currentConfig : Doc) (key : string) :
  key <> "volume" ->
  mergeSettings updates currentConfig !! key =
  match updates !! key with
  | Some value => Some value
  | None => currentConfig !! key
  end.
Proof.
  intros Hkey. unfold mergeSettings.
  apply (map_fold_weak_ind (fun (r : Doc) (m : Doc) =>
    r !! key = match m !! key with Some v => Some v | None => currentConfig !! key end)).
  - rewrite lookup_empty. reflexivity.
  - intros k v m r Hk IH. unfold mergeEntry.
    destruct (String.eqb k "volume") eqn:Ek.
    + apply String.eqb_eq in Ek. subst k.
      rewrite (lookup_insert_ne m) by congruence.
      destruct v; try exact IH.
      destruct (r !! "volume") as [[] |]; try exact IH.
      rewrite lookup_insert_ne by congruence. exact IH.
    + destruct (decide (k = key)) as [-> | Hne].
      * rewrite !lookup_insert_eq. reflexivity.
      * rewrite !lookup_insert_ne by exact Hne. exact IH.
Qed.

(** The key "volume": the update is merged into the stored table when both
    are tables, and is dropped otherwise. *)
Lemma mergeSettings_lookup_volume (updates currentConfig : Doc) :
  mergeSettings updates currentConfig !! "volume" =
  match updates !! "volume", currentConfig !! "volume" with
  | Some (VTable volumeUpdates), Some (VTable currentVolume) =>
    Some (VTable (volumeUpdates ∪ currentVolume))
  | _, stored => stored
  end.
Proof.
  unfold mergeSettings.
  apply (map_fold_weak_ind (fun (r : Doc) (m : Doc) =>
    r !! "volume" =
    match m !! "volume", currentConfig !! "volume" with
    | Some (VTable u), Some (VTable c) => Some (VTable (u ∪ c))
    | _, stored => stored
    end)).
  - rewrite lookup_empty. reflexivity.
  - intros k v m r Hk IH. unfold mergeEntry.
    destruct (String.eqb k "volume") eqn:Ek.
    + apply String.eqb_eq in Ek. subst k.
      rewrite Hk in IH. rewrite lookup_insert_eq.
      destruct v; try (rewrite IH; destruct (currentConfig !! "volume") as [[] |]; reflexivity).
      rewrite IH.
      destruct (currentConfig !! "volume") as [[] |]; try (rewrite IH; reflexivity).
      rewrite lookup_insert_eq, mergeVolume_union. reflexivity.
    + apply String.eqb_neq in Ek.
      rewrite !lookup_insert_ne by exact Ek. exact IH.
Qed.

(** The loop computes the merged document of the interface. *)
Lemma mergeSettings_mergedDocument (updates currentConfig : Doc) :
  mergeSettings updates currentConfig = mergedDocument updates currentConfig.
Proof.
  apply map_eq. intros key. unfold mergedDocument.
  destruct (decide (key = "volume")) as [-> | Hkey].
  - rewrite mergeSettings_lookup_volume.
    destruct (updates !! "volume") as [v |] eqn:Eu.
    + destruct v;
        try (rewrite lookup_union_r by apply lookup_delete_eq;
             destruct (currentConfig !! "volume") as [[] |]; reflexivity).
      destruct (currentConfig !! "volume") as [c |] eqn:Ec.
      * destruct c;
          try (rewrite lookup_union_r by apply lookup_delete_eq; exact (eq_sym Ec)).
        rewrite lookup_insert_eq. reflexivity.
      * rewrite lookup_union_r by apply lookup_delete_eq. exact (eq_sym Ec).
    + rewrite lookup_union_r by apply lookup_delete_eq.
      destruct (currentConfig !! "volume") as [[] |]; reflexivity.
  - rewrite (mergeSettings_lookup_top _ _ _ Hkey).
    assert (Htop : (delete "volume" updates ∪ currentConfig) !! key =
                   match updates !! key with
                   | Some value => Some value
                   | None => currentConfig !! key
                   end).
    { rewrite lookup_union, lookup_delete_ne by congruence.
      destruct (updates !! key), (currentConfig !! key); reflexivity. }
    destruct (updates !! "volume") as [[] |]; try exact (eq_sym Htop).
    destruct (currentConfig !! "volume") as [[] |]; try exact (eq_sym Htop).
    rewrite lookup_insert_ne by congruence. exact (eq_sym Htop).
Qed.

(** Two rounds of the loop for different keys can be swapped. *)
Lemma mergeEntry_comm (k1 k2 : string) (v1 v2 : Value) (d : Doc) :
  k1 <> k2 ->
  mergeEntry k1 v1 (mergeEntry k2 v2 d) = mergeEntry k2 v2 (mergeEntry k1 v1 d).
Proof.
  intros Hne. unfold mergeEntry.
  destruct (String.eqb k1 "volume") eqn:E1, (String.eqb k2 "volume") eqn:E2.
  - apply String.eqb_eq in E1, E2. congruence.
  - apply String.eqb_eq in E1. apply String.eqb_neq in E2. subst k1.
    rewrite (lookup_insert_ne d) by exact E2.
    destruct v1; try reflexivity.
    destruct (d !! "volume") as [[] |]; try reflexivity.
    apply insert_insert_ne. congruence.
  - apply String.eqb_neq in E1. apply String.eqb_eq in E2. subst k2.
    rewrite (lookup_insert_ne d) by exact E1.
    destruct v2; try reflexivity.
    destruct (d !! "volume") as [[] |]; try reflexivity.
    apply insert_insert_ne. congruence.
  - apply insert_insert_ne. exact Hne.
Qed.

(** In whatever order the entries of the update are visited, the loop ends
    with the same document. *)
Lemma mergeInOrder_any_order (updates currentConfig : Doc)
    (entries : list (string * Value)) :
  entries ≡ₚ map_to_list updates ->
  mergeInOrder entries currentConfig = mergeSettings updates currentConfig.
Proof.
  intros Hperm. unfold mergeInOrder, mergeSettings.
  rewrite map_fold_foldr, <- fold_left_rev_right.
  assert (Hf : forall l (b : Doc),
            foldr (fun (entry : string * Value) (cur : Doc) =>
                     let '(key, value) := entry in mergeEntry key value cur) b l =
            foldr (uncurry mergeEntry) b l).
  { intros l b. induction l as [|[k v] l IH]; simpl; [| rewrite IH]; reflexivity. }
  rewrite Hf.
  assert (Hrev : rev entries ≡ₚ map_to_list updates)
    by (rewrite <- Hperm; symmetry; apply Permutation_rev).
  assert (Hnd : NoDup (rev entries).*1)
    by (rewrite Hrev; apply NoDup_fst_map_to_list).
  apply (foldr_permutation eq (uncurry mergeEntry)).
  - intros entry d1 d2 ->. reflexivity.
  - intros j1 [k1 v1] j2 [k2 v2] d Hj H1 H2. cbn [uncurry].
    apply mergeEntry_comm. intros ->.
    apply Hj. apply (NoDup_lookup _ j1 j2 k2 Hnd).
    + rewrite list_lookup_fmap, H1. reflexivity.
    + rewrite list_lookup_fmap, H2. reflexivity.
  - exact Hrev.
Qed.

Section Settings.

Variable L : Library.

(** [loadConfig] when the file cannot be read or its text cannot be parsed:
    the error is returned and nothing was stored. *)
Lemma loadConfig_parse_failure (s : State) (cause : Error) :
  fs_read (fs s) = Err cause \/
  (exists text, fs_read (fs s) = Ok text /\ toml_parse L text = Err cause) ->
  loadConfig L s = (s, Some (Errorf "error loading config" cause)).
Proof.
  unfold loadConfig. intros [-> | (text & -> & ->)]; reflexivity.
Qed.

(** [loadConfig] changes nothing but [config]. *)
Lemma loadConfig_frame (s : State) :
  coordinates (fst (loadConfig L s)) = coordinates s /\
  scheduler (fst (loadConfig L s)) = scheduler s /\
  fs (fst (loadConfig L s)) = fs s /\
  clock (fst (loadConfig L s)) = clock s /\
  trace (fst (loadConfig L s)) = trace s.
Proof.
  unfold loadConfig.
  destruct (fs_read (fs s)); [| cbn; auto].
  destruct (toml_parse L a); [| cbn; auto].
  destruct (toml_unify L a0 (config s)). cbn. auto.
Qed.

(** [onUpdateSettings] when [loadConfig] fails: the error is logged, and
    neither the coordinates nor the scheduler are touched. *)
Lemma onUpdateSettings_load_failure (s : State) (err : Error) :
  snd (loadConfig L s) = Some err ->
  onUpdateSettings L s = emit (Logged (MsgFailedToReload err)) (fst (loadConfig L s)).
Proof.
  unfold onUpdateSettings. destruct (loadConfig L s) as [s1 [e |]]; cbn.
  - intros [= ->]. reflexivity.
  - discriminate.
Qed.

(** C3, as the code has it. A reload in which [loadConfig] fails, for
    whatever reason, logs the error and stops: coordinates, jobs and store
    are as before, and the log line is all the output. [onUpdateSettings]
    returns nothing, so its caller is not told. The configuration is as
    before when [config.toml] cannot be read or is not TOML; when a value
    cannot be stored into [config], the configuration is what the decoder
    left behind, with every value it had stored before the error. *)
Theorem onUpdateSettings_failed_reload (s : State) (err : Error) :
  snd (loadConfig L s) = Some err ->
  let s' := onUpdateSettings L s in
  coordinates s' = coordinates s /\
  scheduler s' = scheduler s /\
  fs s' = fs s /\
  trace s' = (trace s ++ [Logged (MsgFailedToReload err)])%list /\
  (unreadable L s -> config s' = config s) /\
  (forall text table,
     fs_read (fs s) = Ok text -> toml_parse L text = Ok table ->
     config s' = fst (toml_unify L table (config s)) /\
     exists cause, snd (toml_unify L table (config s)) = Some cause /\
                   err = Errorf "error loading config" cause).
Proof.
  intros Hfail s'. unfold s'.
  rewrite (onUpdateSettings_load_failure s err Hfail).
  destruct (loadConfig_frame s) as (Hco & Hsch & Hfs & _ & Htr).
  cbn [coordinates scheduler fs trace config emit]. rewrite Hco, Hsch, Hfs, Htr.
  do 4 (split; [reflexivity |]).
  unfold unreadable, loadConfig in *.
  destruct (fs_read (fs s)) as [text | e].
  - destruct (toml_parse L text) as [table | e] eqn:Ep.
    + split; [contradiction |]. intros text' table' [= <-] Hp.
      rewrite Ep in Hp. injection Hp as <-.
      destruct (toml_unify L table (config s)) as [c [cause |]]; cbn in Hfail |- *.
      * injection Hfail as <-. eauto.
      * discriminate.
    + split; [reflexivity |]. intros text' table' [= <-] Hp.
      rewrite Ep in Hp. discriminate.
  - split; [reflexivity | discriminate].
Qed.

(** C8. The replies of the settings endpoint. A body that is not a JSON
    object is answered 400, with the state untouched. When the store cannot
    be read, parsed or written, the answer is 500 and no reload took place:
    configuration, coordinates, jobs and output are as before. Otherwise the
    document written to the store is the stored one with the update's
    top-level keys overwritten and the update's volume object merged into
    the stored volume object; [onUpdateSettings] (reload and rebuild) is
    then run on the written store, and the answer is 200. *)
Theorem updateSettingsHandler_replies (body : string) (s : State) :
  let s' := fst (updateSettingsHandler L body s) in
  let reply := snd (updateSettingsHandler L body s) in
  (forall e, gin_BindJSON L body = Err e ->
     status reply = 400 /\ s' = s) /\
  (forall updates, gin_BindJSON L body = Ok updates -> storeFailure L updates s ->
     status reply = 500 /\
     config s' = config s /\ coordinates s' = coordinates s /\
     scheduler s' = scheduler s /\ trace s' = trace s) /\
  (forall updates, gin_BindJSON L body = Ok updates -> ~ storeFailure L updates s ->
     exists text stored,
       fs_read (fs s) = Ok text /\ toml_parse L text = Ok stored /\
       toml_Encode L (mergedDocument updates stored) =
         (fst (toml_Encode L (mergedDocument updates stored)), None) /\
       s' = onUpdateSettings L
              (written (fst (toml_Encode L (mergedDocument updates stored))) s) /\
       reply = mkResponse 200 "message" "Settings updated successfully").
Proof.
  intros s' reply. unfold s', reply, updateSettingsHandler, storeFailure, writeConfig.
  split; [| split].
  - intros e ->. cbn. auto.
  - intros updates -> Hfail.
    destruct (fs_read (fs s)) as [text | e]; [| cbn; auto].
    destruct (toml_parse L text) as [stored | e]; [| cbn; auto].
    destruct (fs_create (fs s)) as [e |]; [cbn; auto |].
    destruct (toml_Encode L (mergeSettings updates stored)) as [w [e |]]; [cbn; auto |].
    cbn in Hfail. destruct Hfail as [Hc | He]; contradiction.
  - intros updates -> Hok.
    destruct (fs_read (fs s)) as [text | e]; [| contradiction].
    destruct (toml_parse L text) as [stored | e] eqn:Ep; [| contradiction].
    exists text, stored.
    rewrite <- mergeSettings_mergedDocument.
    destruct (fs_create (fs s)) as [e |] eqn:Ec; [exfalso; apply Hok; left; discriminate |].
    destruct (toml_Encode L (mergeSettings updates stored)) as [w [e |]];
      [exfalso; apply Hok; right; discriminate |].
    cbn. unfold written. rewrite Ec. auto.
Qed.

End Settings.

Lemma updateSettingsHandler_replies_witness :
  status (snd (updateSettingsHandler Scenario.lib Scenario.volumeBody Scenario.armed)) = 200 /\
  fs_read (fs (fst (updateSettingsHandler Scenario.lib Scenario.volumeBody Scenario.armed))) =
    Ok "config.toml with fajr at 0".
Proof.
  destruct (updateSettingsHandler_replies Scenario.lib Scenario.volumeBody Scenario.armed)
    as (_ & _ & Hok).
  destruct (Hok Scenario.volumeUpdates eq_refl) as (text & stored & _ & _ & _ & Hs & Hr).
  - unfold storeFailure. cbn. intros [H | H]; apply H; reflexivity.
  - split.
    + rewrite Hr. reflexivity.
    + reflexivity.
Defined.

(** The settings request of the example, in full: the fajr volume is 0 and
    the method EGYPTIAN afterwards, and the daily group is rebuilt. *)
Example volume_request :
  let s' := fst (updateSettingsHandler Scenario.lib Scenario.volumeBody Scenario.armed) in
  CalculationMethod (config s') = "EGYPTIAN" /\
  getVolumeForPrayer (config s') "fajr" = 0%R /\
  getVolumeForPrayer (config s') "isha" = 70%R /\
  map job_at (adhanJobs (scheduler s')) =
    ["05:02:00"; "12:24:00"; "15:13:00"; "17:47:00"; "19:11:00"].
Proof. cbn zeta. repeat split; reflexivity. Qed.

(** The document written for that request is the merged one. *)
Example volume_request_document :
  Scenario.parse "config.toml with fajr at 0" =
  Ok (mergeSettings Scenario.volumeUpdates Scenario.configTable).
Proof. reflexivity. Qed.

(** After that request the fajr chain plays the adhan with the exponent of
    volume 0, and the prayer after it with the exponent of volume 50. *)
Example fajr_after_volume_request :
  let s' := fst (updateSettingsHandler Scenario.lib Scenario.volumeBody Scenario.armed) in
  map (fun e => match e with
                | Played path v => Some (path, effects.Volume_ v)
                | _ => None
                end)
      (List.filter isPlayed (chainOutput Scenario.lib "fajr" (Scenario.onDay 2 5 2) s')) =
  [ Some ("audio/ezan1.mp3", volumeExponent 0);
    Some ("audio/prayer.mp3", volumeExponent 50) ].
Proof. reflexivity. Qed.

Lemma onUpdateSettings_failed_reload_witness :
  let s := written "lan = = 52.52" Scenario.armed in
  let err := Errorf "error loading config" (LibError "toml: expected key separator") in
  trace (onUpdateSettings Scenario.lib s) = (trace s ++ [Logged (MsgFailedToReload err)])%list /\
  scheduler (onUpdateSettings Scenario.lib s) = scheduler Scenario.armed /\
  config (onUpdateSettings Scenario.lib s) = config Scenario.armed.
Proof.
  intros s err.
  destruct (onUpdateSettings_failed_reload Scenario.lib s err eq_refl)
    as (_ & Hsch & _ & Htr & Hc & _).
  split; [exact Htr |]. split; [exact Hsch |]. apply Hc. exact I.
Defined.

(** The document the encoder was given for the request below is the merged
    one. *)
Example broken_request_document :
  Scenario.parse "config.toml with a text for adhan_prayer" =
  Ok (mergeSettings Scenario.brokenUpdates Scenario.configTable).
Proof. reflexivity. Qed.

(** C3 as stated fails at the endpoint, in both its parts. A request changes
    the calculation method and puts a text where the configuration has a
    boolean; the store is written, and the reload that follows stores the
    method and then fails at the boolean. The error is logged, but the
    reply is 200 with the message of success: the caller is not told. And
    the configuration is partly updated: the method is the new one, while
    the jobs are those computed for the old one. *)
Lemma updateSettingsHandler_reload_error_not_surfaced :
  let stored := written "config.toml with a text for adhan_prayer" Scenario.armed in
  let err := Errorf "error loading config" (LibError "toml: incompatible types: bool") in
  let result := updateSettingsHandler Scenario.lib Scenario.brokenBody Scenario.armed in
  snd (loadConfig Scenario.lib stored) = Some err /\
  snd result = mkResponse 200 "message" "Settings updated successfully" /\
  trace (fst result) = (trace Scenario.armed ++ [Logged (MsgFailedToReload err)])%list /\
  CalculationMethod (config Scenario.armed) = "TURKEY" /\
  CalculationMethod (config (fst result)) = "EGYPTIAN" /\
  AdhanPrayer (config (fst result)) = AdhanPrayer (config Scenario.armed) /\
  scheduler (fst result) = scheduler Scenario.armed.
Proof. cbn zeta. repeat split; reflexivity. Qed.

(** ** The jobs outside the daily group *)

Section Others.

Variable L : Library.

Lemma otherJobs_RemoveByTag (sch : Scheduler) :
  otherJobs (fst (RemoveByTag "adhan" sch)) = otherJobs sch.
Proof.
  unfold otherJobs. rewrite RemoveByTag_jobs.
  induction (jobs sch) as [|j l IH]; simpl; [reflexivity |].
  destruct (hasTag "adhan" j) eqn:E; simpl; [exact IH |].
  rewrite E. simpl. f_equal. exact IH.
Qed.

(** A rebuild, failed or not, keeps the jobs outside the daily group. *)
Lemma otherJobs_updatePrayerTimes (s : State) :
  otherJobs (scheduler (updatePrayerTimes L s)) = otherJobs (scheduler s).
Proof.
  destruct (todaysTimes L s) as [pt | msg] eqn:E.
  - destruct (updatePrayerTimes_success_jobs L s pt E) as (Hjobs & _ & _).
    cbn zeta in Hjobs. unfold otherJobs at 1. rewrite Hjobs, List.filter_app.
    cbn. rewrite app_nil_r.
    change (List.filter (fun j => negb (hasTag "adhan" j)) (jobs (scheduler s)))
      with (otherJobs (scheduler s)).
    rewrite <- (otherJobs_RemoveByTag (scheduler s)) at 2.
    unfold otherJobs at 2. rewrite RemoveByTag_jobs. reflexivity.
  - destruct (updatePrayerTimes_failure L s msg E) as (-> & _). reflexivity.
Qed.

End Others.

(** ** Start of the process *)

Section Startup.

Variable L : Library.


Lemma todaysTimes_error (s : State) (msg : Msg) :
  todaysTimes L s = inr msg ->
  (exists e, msg = MsgErrorCalculating e) \/ (exists e, msg = MsgErrorTimezone e).
Proof.
  unfold todaysTimes, computePrayerTimes.
  destruct (calc_NewPrayerTimes L _ _ _) as [pt | e]; [| intros [= <-]; eauto].
  destruct (calc_SetTimeZone L pt _) as [pt' [e |]]; [intros [= <-]; eauto | discriminate].
Qed.




(** *** What comes after what, before the run loop *)















End Startup.


(** [main] as written, on the morning of 2 March: one rebuild, then the run
    loop. *)
Example main_2_March :
  exists s', main Scenario.lib Scenario.fresh = Scheduling s' /\
    rebuilds (trace s') = 1 /\
    last (trace s') = Some RunLoop /\
    map job_at (jobs (scheduler s')) =
      ["00:00"; "05:02:00"; "12:24:00"; "15:13:00"; "17:47:00"; "19:11:00"].
Proof. eexists. split; [reflexivity |]. repeat split; reflexivity. Qed.

(** ** The invariant of the scheduler

    Every state the process reaches has a scheduler whose job identities are
    below the next identity: the condition under which a rebuild was shown
    to leave no job of an earlier group. *)

Section Invariant.

Variable L : Library.

Lemma wfScheduler_StartBlocking (sch : Scheduler) :
  wfScheduler sch -> wfScheduler (StartBlocking sch).
Proof. intros H. exact H. Qed.

Lemma wfScheduler_scheduleAdhan (name : string) (t : Time) (s : State) :
  wfScheduler (scheduler s) -> wfScheduler (scheduler (scheduleAdhan name t s)).
Proof.
  intros H. unfold scheduleAdhan. cbn [scheduler set_scheduler emit].
  apply wfScheduler_addJob, H.
Qed.

Lemma wfScheduler_updatePrayerTimes (s : State) :
  wfScheduler (scheduler s) -> wfScheduler (scheduler (updatePrayerTimes L s)).
Proof.
  intros H. rewrite updatePrayerTimes_unfold. cbn zeta.
  destruct (todaysTimes L s) as [pt | msg].
  - unfold scheduleAll. repeat apply wfScheduler_scheduleAdhan.
    cbn [scheduler set_scheduler]. apply wfScheduler_RemoveByTag.
    unfold printPrayerTimes. cbn [scheduler emit].
    rewrite getCalculationMethod_scheduler. exact H.
  - cbn [scheduler emit]. rewrite getCalculationMethod_scheduler. exact H.
Qed.

Lemma wfScheduler_onUpdateSettings (s : State) :
  wfScheduler (scheduler s) -> wfScheduler (scheduler (onUpdateSettings L s)).
Proof.
  intros H. unfold onUpdateSettings.
  pose proof (loadConfig_frame L s) as (_ & Hs & _).
  destruct (loadConfig L s) as [s1 [e |]]; cbn [fst] in Hs.
  - cbn [scheduler emit]. rewrite Hs. exact H.
  - destruct (util_NewCoordinates L _ _) as [c [e |]].
    + cbn [scheduler emit set_coordinates]. rewrite Hs. exact H.
    + apply wfScheduler_updatePrayerTimes. cbn [scheduler set_scheduler set_coordinates].
      apply wfScheduler_RemoveByTag. rewrite Hs. exact H.
Qed.

Lemma wfScheduler_updateSettingsHandler (body : string) (s : State) :
  wfScheduler (scheduler s) ->
  wfScheduler (scheduler (fst (updateSettingsHandler L body s))).
Proof.
  intros H. unfold updateSettingsHandler, writeConfig.
  destruct (gin_BindJSON L body) as [updates | e]; [| exact H].
  destruct (fs_read (fs s)) as [text | e]; [| exact H].
  destruct (toml_parse L text) as [stored | e]; [| exact H].
  destruct (fs_create (fs s)) as [e |]; [exact H |].
  destruct (toml_Encode L _) as [w [e |]]; [exact H |].
  cbn [fst]. apply wfScheduler_onUpdateSettings. exact H.
Qed.

Lemma wfScheduler_runTask (t : Task) (s : State) :
  wfScheduler (scheduler s) -> wfScheduler (scheduler (runTask L t s)).
Proof.
  intros H. destruct t as [| name time]; cbn [runTask].
  - apply wfScheduler_updatePrayerTimes, H.
  - destruct (adhanJob_frame L name time s) as (_ & _ & -> & _). exact H.
Qed.

Lemma wfScheduler_fire (j : Job) (s : State) :
  wfScheduler (scheduler s) -> wfScheduler (scheduler (fire L j s)).
Proof.
  intros H. unfold fire. destruct (_ && _); [| exact H].
  apply wfScheduler_runTask, H.
Qed.

Lemma wfScheduler_main (f : FileSystem) (now : Time) (s' : State) :
  main L (initState f now) = Scheduling s' -> wfScheduler (scheduler s').
Proof.
  unfold main.
  pose proof (loadConfig_frame L (initState f now)) as (_ & Hs & _).
  destruct (loadConfig L (initState f now)) as [s1 [e |]]; [discriminate |].
  cbn [fst] in Hs.
  destruct (util_NewCoordinates L _ _) as [c [e |]]; [discriminate |].
  intros [= <-]. cbn [scheduler set_scheduler].
  apply wfScheduler_StartBlocking, wfScheduler_updatePrayerTimes.
  cbn [scheduler set_scheduler set_coordinates emit]. rewrite Hs.
  apply wfScheduler_addJob, wfScheduler_NewScheduler.
Qed.

End Invariant.

(** * Further properties *)

(** ** Gain *)

(** X1. For a volume between 0 and 100 the amplitude multiplier lies between
    1/16 and 1: the rendered sound is never louder than the decoded one. *)
Theorem gain_within_bounds (st : list Sample) (v : R) :
  (0 <= v)%R -> (v <= 100)%R ->
  (/ 16 <= effects.gain (volumeAdjusted st v) <= 1)%R /\
  Forall2 noLouder (effects.Stream (volumeAdjusted st v)) st.
Proof.
  intros H0 H100.
  assert (Hlo : (/ 16 <= effects.gain (volumeAdjusted st v))%R).
  { rewrite <- (gain_at_0 st). apply gain_le, H0. }
  assert (Hhi : (effects.gain (volumeAdjusted st v) <= 1)%R).
  { rewrite <- (gain_at_100 st). apply gain_le, H100. }
  split; [split; assumption |].
  rewrite <- (Stream_unity st (volumeAdjusted st 100) (gain_at_100 st) eq_refl) at 2.
  apply Stream_noLouder, H100.
Qed.

Lemma gain_within_bounds_witness :
  (/ 16 <= effects.gain (volumeAdjusted [(1, -1)%R] 60) <= 1)%R /\
  Forall2 noLouder (effects.Stream (volumeAdjusted [(1, -1)%R] 60)) [(1, -1)%R].
Proof. apply (gain_within_bounds [(1, -1)%R] 60); lra. Defined.

(** X2. The configured volume is not clamped: when [playAudio] plays a sound
    whose configured volume is above 100, the sound is amplified (the
    multiplier is above 1). *)
Theorem playAudio_amplifies_above_100 (L : Library) (filepath audioType : string)
    (s s' : State) :
  playAudio L filepath audioType s = (s', None) ->
  (100 < getVolumeForPrayer (config s) audioType)%R ->
  exists v, s' = emit (Played filepath v) s /\ (1 < effects.gain v)%R.
Proof.
  intros Hplay Hvol.
  destruct (playAudio_cases L filepath audioType s) as [[e He] | [st He]];
    rewrite He in Hplay; [discriminate |].
  injection Hplay as <-. eexists. split; [reflexivity |].
  rewrite gain_volumeAdjusted, <- (Rpower_O 2) by lra.
  apply Rpower_lt; [lra |]. unfold volumeExponent. lra.
Qed.

Lemma playAudio_amplifies_above_100_witness :
  exists v,
    fst (playAudio Scenario.lib "audio/ezan1.mp3" "fajr" Cases.loud) =
      emit (Played "audio/ezan1.mp3" v) Cases.loud /\
    (1 < effects.gain v)%R.
Proof.
  destruct (playAudio_amplifies_above_100 Scenario.lib "audio/ezan1.mp3" "fajr"
              Cases.loud
              (fst (playAudio Scenario.lib "audio/ezan1.mp3" "fajr" Cases.loud))
              eq_refl)
    as (v & Hv & Hg).
  - cbn. lra.
  - exists v. split; [exact Hv | exact Hg].
Defined.

(** ** The playback chain, sound by sound *)

Section ChainSounds.

Variable L : Library.

(** X4. When both sounds can be played, the name is not "test" and the
    prayer after the adhan is enabled, the chain prints its line, plays the
    adhan at the volume of its prayer, prints the second line and plays
    [audio/prayer.mp3] at the volume configured for the prayer: in this
    order, and nothing else. *)
Theorem adhanJob_plays_adhan_then_prayer (prayerName : string) (prayerTime : Time)
    (s : State) :
  snd (playAudio L (audioFile prayerName) prayerName s) = None ->
  snd (playAudio L (audioFile "prayer") "prayer" s) = None ->
  prayerName <> "test" ->
  AdhanPrayer (config s) = true ->
  exists streamer streamer',
    chainOutput L prayerName prayerTime s =
    [ Stdout (MsgPlaying prayerName prayerTime);
      Played (audioFile prayerName)
        (volumeAdjusted streamer (getVolumeForPrayer (config s) prayerName));
      Stdout (MsgPlayingPrayerAfter prayerName);
      Played "audio/prayer.mp3"
        (volumeAdjusted streamer' (VolAdhanPrayer (Volume (config s)))) ].
Proof.
  intros H1 H2 Hname Hflag.
  destruct (chainOutput_secondary L prayerName prayerTime s H1 Hname Hflag) as [st H].
  cbn zeta in H. rewrite H2 in H. destruct H as [st' H].
  exists st, st'. exact H.
Qed.

(** X5. When the secondary sound cannot be played, its error is logged after
    the adhan was played; the adhan is not played again, and configuration
    and scheduler are as before. *)
Theorem adhanJob_secondary_failure_is_logged (prayerName : string)
    (prayerTime : Time) (s : State) (err : Error) :
  snd (playAudio L (audioFile prayerName) prayerName s) = None ->
  snd (playAudio L (audioFile "prayer") "prayer" s) = Some err ->
  prayerName <> "test" ->
  AdhanPrayer (config s) = true ->
  (exists streamer,
     chainOutput L prayerName prayerTime s =
     [ Stdout (MsgPlaying prayerName prayerTime);
       Played (audioFile prayerName)
         (volumeAdjusted streamer (getVolumeForPrayer (config s) prayerName));
       Stdout (MsgPlayingPrayerAfter prayerName);
       Logged (MsgErrorPlayingPrayerAfter prayerName err) ]) /\
  config (adhanJob L prayerName prayerTime s) = config s /\
  scheduler (adhanJob L prayerName prayerTime s) = scheduler s.
Proof.
  intros H1 H2 Hname Hflag.
  destruct (chainOutput_secondary L prayerName prayerTime s H1 Hname Hflag) as [st H].
  cbn zeta in H. rewrite H2 in H.
  destruct (adhanJob_frame L prayerName prayerTime s) as (Hc & _ & Hs & _).
  split; [exists st; exact H | split; assumption].
Qed.

(** X6. A chain run for "test" plays the test sound unchanged (volume 100,
    multiplier 1) and never the prayer after it, whatever the configuration
    says. *)
Theorem adhanJob_test_plays_unchanged (prayerTime : Time) (s : State) :
  snd (playAudio L (audioFile "test") "test" s) = None ->
  exists v,
    chainOutput L "test" prayerTime s =
      [Stdout (MsgPlaying "test" prayerTime); Played "audio/test.mp3" v] /\
    effects.Stream v = effects.Streamer v.
Proof.
  intros H.
  pose proof (chainOutput_cases L "test" prayerTime s) as Hout. cbn zeta in Hout.
  rewrite H in Hout. destruct Hout as [st Hout]. cbn [String.eqb negb andb] in Hout.
  change (negb (String.eqb "test" "test") && AdhanPrayer (config s)) with false in Hout.
  eexists. split; [exact Hout |].
  apply Stream_unity; [| reflexivity].
  change (getVolumeForPrayer (config s) "test") with 100%R. apply gain_at_100.
Qed.

(** X7. A name without an entry in [audioFiles] makes the chain open the
    empty path; when that cannot be opened, the chain logs the error and
    plays nothing. *)
Theorem adhanJob_unknown_name (prayerName : string) (prayerTime : Time)
    (s : State) (cause : Error) :
  audioFiles !! prayerName = None ->
  os_Open L "" = Err cause ->
  chainOutput L prayerName prayerTime s =
  [ Stdout (MsgPlaying prayerName prayerTime);
    Logged (MsgErrorPlaying prayerName (Errorf "error opening audio file" cause)) ].
Proof.
  intros Hfile Hopen.
  pose proof (chainOutput_cases L prayerName prayerTime s) as Hout. cbn zeta in Hout.
  assert (Hplay : snd (playAudio L (audioFile prayerName) prayerName s) =
                  Some (Errorf "error opening audio file" cause)).
  { unfold playAudio, audioFile. rewrite Hfile. cbn [default]. rewrite Hopen. reflexivity. }
  rewrite Hplay in Hout. exact Hout.
Qed.

End ChainSounds.

Lemma adhanJob_plays_adhan_then_prayer_witness :
  map (fun e => match e with Played path _ => path | _ => "" end)
    (chainOutput Scenario.lib "maghrib" (Scenario.onDay 2 17 47) Scenario.armed) =
  [""; "audio/ezan4.mp3"; ""; "audio/prayer.mp3"].
Proof.
  destruct (adhanJob_plays_adhan_then_prayer Scenario.lib "maghrib"
              (Scenario.onDay 2 17 47) Scenario.armed eq_refl eq_refl)
    as (st & st' & H).
  - discriminate.
  - reflexivity.
  - rewrite H. reflexivity.
Defined.

Lemma adhanJob_secondary_failure_is_logged_witness :
  config (adhanJob Cases.noPrayerFileLib "isha" (Scenario.onDay 2 19 11) Scenario.armed) =
    config Scenario.armed /\
  scheduler (adhanJob Cases.noPrayerFileLib "isha" (Scenario.onDay 2 19 11) Scenario.armed) =
    scheduler Scenario.armed.
Proof.
  destruct (adhanJob_secondary_failure_is_logged Cases.noPrayerFileLib "isha"
              (Scenario.onDay 2 19 11) Scenario.armed
              (Errorf "error opening audio file" (LibError "no such file or directory"))
              eq_refl eq_refl)
    as (_ & Hc & Hs).
  - discriminate.
  - reflexivity.
  - split; [exact Hc | exact Hs].
Defined.

Lemma adhanJob_test_plays_unchanged_witness :
  exists v,
    chainOutput Scenario.lib "test" Scenario.now Scenario.armed =
      [Stdout (MsgPlaying "test" Scenario.now); Played "audio/test.mp3" v] /\
    effects.Stream v = effects.Streamer v.
Proof.
  exact (adhanJob_test_plays_unchanged Scenario.lib Scenario.now Scenario.armed eq_refl).
Defined.

Lemma adhanJob_unknown_name_witness :
  chainOutput Cases.strictFilesLib "jumuah" Scenario.now Scenario.armed =
  [ Stdout (MsgPlaying "jumuah" Scenario.now);
    Logged (MsgErrorPlaying "jumuah"
              (Errorf "error opening audio file" (LibError "no such file or directory"))) ].
Proof.
  exact (adhanJob_unknown_name Cases.strictFilesLib "jumuah" Scenario.now Scenario.armed
           (LibError "no such file or directory") eq_refl eq_refl).
Defined.

(** ** The merge of a settings update *)

(** X8. Go visits the entries of the update in an order of its own; in
    whatever order the loop of the handler visits them, it ends with the
    same document: the stored one with the update's top-level keys
    overwritten and its volume object merged in. *)
Theorem mergeInOrder_mergedDocument (updates currentConfig : Doc)
    (entries : list (string * Value)) :
  entries ≡ₚ map_to_list updates ->
  mergeInOrder entries currentConfig = mergedDocument updates currentConfig.
Proof.
  intros H. rewrite (mergeInOrder_any_order updates currentConfig entries H).
  apply mergeSettings_mergedDocument.
Qed.

Lemma mergeInOrder_mergedDocument_witness :
  mergeInOrder (rev (map_to_list Scenario.volumeUpdates)) Scenario.configTable =
  mergedDocument Scenario.volumeUpdates Scenario.configTable.
Proof.
  apply (mergeInOrder_mergedDocument Scenario.volumeUpdates Scenario.configTable).
  symmetry. apply Permutation_rev.
Defined.

(** X9. Applying the same update twice gives the same document as applying
    it once. *)
Theorem mergeSettings_idempotent (updates currentConfig : Doc) :
  mergeSettings updates (mergeSettings updates currentConfig) =
  mergeSettings updates currentConfig.
Proof.
  apply map_eq. intros key.
  destruct (decide (key = "volume")) as [-> | Hkey].
  - rewrite (mergeSettings_lookup_volume updates (mergeSettings updates currentConfig)).
    rewrite (mergeSettings_lookup_volume updates currentConfig).
    destruct (updates !! "volume") as [[| | | | | | u] |]; try reflexivity;
      try (destruct (currentConfig !! "volume") as [[] |]; reflexivity).
    destruct (currentConfig !! "volume") as [[| | | | | | c] |]; try reflexivity.
    do 2 f_equal. rewrite (assoc_L (∪)), (idemp_L (∪)). reflexivity.
  - rewrite !(mergeSettings_lookup_top _ _ _ Hkey).
    destruct (updates !! key); reflexivity.
Qed.

(** X10. The endpoint never removes anything: every key of the stored
    document is a key of the merged one, every key the update does not name
    keeps its stored value, and inside the volume table every entry the
    update does not name keeps its stored value. *)
Theorem mergeSettings_keeps_stored (updates currentConfig : Doc) :
  (forall key, is_Some (currentConfig !! key) ->
               is_Some (mergeSettings updates currentConfig !! key)) /\
  (forall key, updates !! key = None ->
               mergeSettings updates currentConfig !! key = currentConfig !! key) /\
  (forall currentVolume, currentConfig !! "volume" = Some (VTable currentVolume) ->
     exists mergedVolume,
       mergeSettings updates currentConfig !! "volume" = Some (VTable mergedVolume) /\
       (forall k, is_Some (currentVolume !! k) -> is_Some (mergedVolume !! k)) /\
       (forall k volumeUpdates,
          updates !! "volume" = Some (VTable volumeUpdates) ->
          volumeUpdates !! k = None -> mergedVolume !! k = currentVolume !! k)).
Proof.
  split; [| split].
  - intros key Hsome. destruct (decide (key = "volume")) as [-> | Hkey].
    + rewrite mergeSettings_lookup_volume.
      destruct Hsome as [v Hv]. rewrite Hv.
      destruct (updates !! "volume") as [[] |]; eauto. destruct v; eauto.
    + rewrite (mergeSettings_lookup_top _ _ _ Hkey).
      destruct (updates !! key); eauto.
  - intros key Hnone. destruct (decide (key = "volume")) as [-> | Hkey].
    + rewrite mergeSettings_lookup_volume, Hnone. reflexivity.
    + rewrite (mergeSettings_lookup_top _ _ _ Hkey), Hnone. reflexivity.
  - intros cv Hcv. rewrite mergeSettings_lookup_volume, Hcv.
    destruct (updates !! "volume") as [[| | | | | | u] |] eqn:Eu;
      try (exists cv; split; [reflexivity | split; [tauto | intros; congruence || reflexivity]]).
    exists (u ∪ cv). split; [reflexivity | split].
    + intros k [x Hx]. destruct (u !! k) as [y |] eqn:Ek.
      * exists y. apply lookup_union_Some_l, Ek.
      * exists x. rewrite lookup_union_r by exact Ek. exact Hx.
    + intros k u' [= <-] Hk. apply lookup_union_r, Hk.
Qed.

(** X11. The update's volume entry is dropped, and the stored volume entry
    left as it is, whenever the stored document has no volume table or the
    update's volume is not an object. *)
Theorem mergeSettings_volume_dropped (updates currentConfig : Doc) :
  (forall currentVolume, currentConfig !! "volume" <> Some (VTable currentVolume)) \/
  (forall volumeUpdates, updates !! "volume" <> Some (VTable volumeUpdates)) ->
  mergeSettings updates currentConfig !! "volume" = currentConfig !! "volume".
Proof.
  intros H. rewrite mergeSettings_lookup_volume.
  destruct (updates !! "volume") as [[| | | | | | u] |]; try reflexivity.
  destruct (currentConfig !! "volume") as [[| | | | | | c] |]; try reflexivity.
  destruct H as [H | H]; [destruct (H c) | destruct (H u)]; reflexivity.
Qed.

Lemma mergeSettings_volume_dropped_witness :
  mergeSettings Scenario.volumeUpdates Cases.flatTable !! "volume" = None.
Proof.
  rewrite (mergeSettings_volume_dropped Scenario.volumeUpdates Cases.flatTable).
  - reflexivity.
  - left. intros cv. discriminate.
Defined.

Section WrittenStore.

Variable L : Library.

(** X12. A request with an empty object writes the stored document back as
    it was read, and still runs the reload and the rebuild. *)
Theorem updateSettingsHandler_empty_update (body text written_ : string)
    (stored : Doc) (s : State) :
  gin_BindJSON L body = Ok ∅ ->
  fs_read (fs s) = Ok text ->
  toml_parse L text = Ok stored ->
  fs_create (fs s) = None ->
  toml_Encode L stored = (written_, None) ->
  updateSettingsHandler L body s =
  (onUpdateSettings L (written written_ s),
   mkResponse 200 "message" "Settings updated successfully").
Proof.
  intros Hbody Hread Hparse Hcreate Henc.
  unfold updateSettingsHandler, writeConfig, written.
  rewrite Hbody, Hread, Hparse, Hcreate.
  unfold mergeSettings. rewrite map_fold_empty, Henc. reflexivity.
Qed.

(** X13. When the encoder fails after the file was created, the answer is
    500 and nothing is reloaded, but the store is no longer what it was: it
    holds what the encoder wrote before it failed, and that is what the next
    reload reads. *)
Theorem updateSettingsHandler_failed_write_overwrites (body text written_ : string)
    (updates stored : Doc) (err : Error) (s : State) :
  gin_BindJSON L body = Ok updates ->
  fs_read (fs s) = Ok text ->
  toml_parse L text = Ok stored ->
  fs_create (fs s) = None ->
  toml_Encode L (mergeSettings updates stored) = (written_, Some err) ->
  updateSettingsHandler L body s =
    (written written_ s, mkResponse 500 "error" "Failed to write config file") /\
  fs_read (fs (fst (updateSettingsHandler L body s))) = Ok written_ /\
  config (fst (updateSettingsHandler L body s)) = config s /\
  trace (fst (updateSettingsHandler L body s)) = trace s.
Proof.
  intros Hbody Hread Hparse Hcreate Henc.
  assert (H : updateSettingsHandler L body s =
              (written written_ s, mkResponse 500 "error" "Failed to write config file")).
  { unfold updateSettingsHandler, writeConfig, written.
    rewrite Hbody, Hread, Hparse, Hcreate, Henc. reflexivity. }
  rewrite H. cbn. auto.
Qed.

End WrittenStore.

Lemma updateSettingsHandler_empty_update_witness :
  updateSettingsHandler Cases.emptyBodyLib "{}" Scenario.armed =
  (onUpdateSettings Cases.emptyBodyLib (written Scenario.configText Scenario.armed),
   mkResponse 200 "message" "Settings updated successfully").
Proof.
  apply (updateSettingsHandler_empty_update Cases.emptyBodyLib "{}" Scenario.configText
           Scenario.configText Scenario.configTable Scenario.armed); reflexivity.
Defined.

Lemma updateSettingsHandler_failed_write_overwrites_witness :
  fs_read (fs (fst (updateSettingsHandler Cases.brokenEncoderLib Scenario.volumeBody
                      Scenario.armed))) = Ok "adhan_prayer = true" /\
  status (snd (updateSettingsHandler Cases.brokenEncoderLib Scenario.volumeBody
                 Scenario.armed)) = 500.
Proof.
  destruct (updateSettingsHandler_failed_write_overwrites Cases.brokenEncoderLib
              Scenario.volumeBody Scenario.configText "adhan_prayer = true"
              Scenario.volumeUpdates Scenario.configTable
              (LibError "toml: cannot encode") Scenario.armed
              eq_refl eq_refl eq_refl eq_refl eq_refl) as (H & Hr & _).
  split; [exact Hr | rewrite H; reflexivity].
Defined.

(** ** Reload and start, case by case *)

Section Reload.

Variable L : Library.

(** X14. When the reloaded coordinates are refused, [onUpdateSettings] logs
    the error and stops: the jobs armed for the old configuration stay as
    they are, while [config] already is the reloaded one and [coordinates]
    holds whatever [NewCoordinates] returned with its error. *)
Theorem onUpdateSettings_coordinates_failure (s s1 : State)
    (c : option util.Coordinates) (err : Error) :
  loadConfig L s = (s1, None) ->
  util_NewCoordinates L (Lan (config s1)) (Lon (config s1)) = (c, Some err) ->
  onUpdateSettings L s =
    emit (Logged (MsgFailedToUpdateCoordinates err)) (set_coordinates c s1) /\
  scheduler (onUpdateSettings L s) = scheduler s /\
  config (onUpdateSettings L s) = config s1 /\
  coordinates (onUpdateSettings L s) = c.
Proof.
  intros Hload Hc.
  pose proof (loadConfig_frame L s) as (_ & Hs & _). rewrite Hload in Hs. cbn [fst] in Hs.
  assert (H : onUpdateSettings L s =
              emit (Logged (MsgFailedToUpdateCoordinates err)) (set_coordinates c s1)).
  { unfold onUpdateSettings. rewrite Hload, Hc. reflexivity. }
  rewrite H. cbn [scheduler config coordinates emit set_coordinates]. auto.
Qed.

(** X15. A reload that succeeds arms the daily group for the times computed
    from the reloaded configuration and coordinates: five one-shot jobs, one
    per daily prayer; the jobs outside the group are kept. *)
Theorem onUpdateSettings_success (s s1 : State) (c : option util.Coordinates)
    (pt : calc.PrayerTimes) :
  loadConfig L s = (s1, None) ->
  util_NewCoordinates L (Lan (config s1)) (Lon (config s1)) = (c, None) ->
  todaysTimes L (set_coordinates c s1) = inl pt ->
  let s' := onUpdateSettings L s in
  config s' = config s1 /\
  coordinates s' = c /\
  map jobPrayer (adhanJobs (scheduler s')) = map Some dailyPrayers /\
  Forall (armedFor pt) (adhanJobs (scheduler s')) /\
  otherJobs (scheduler s') = otherJobs (scheduler s).
Proof.
  intros Hload Hc Hpt s'.
  pose proof (loadConfig_frame L s) as (_ & Hs & _). rewrite Hload in Hs. cbn [fst] in Hs.
  set (s2 := set_scheduler (fst (RemoveByTag "adhan" (scheduler (set_coordinates c s1))))
               (set_coordinates c s1)).
  assert (H : s' = updatePrayerTimes L s2).
  { unfold s', onUpdateSettings. rewrite Hload, Hc. reflexivity. }
  assert (Hpt2 : todaysTimes L s2 = inl pt).
  { unfold s2. rewrite todaysTimes_set_scheduler. exact Hpt. }
  rewrite H.
  split; [| split; [| split; [| split]]].
  - rewrite updatePrayerTimes_unfold, Hpt2. cbn zeta.
    unfold scheduleAll, scheduleAdhan, printPrayerTimes.
    cbn [config set_scheduler emit]. rewrite getCalculationMethod_config. reflexivity.
  - rewrite updatePrayerTimes_unfold, Hpt2. cbn zeta.
    unfold scheduleAll, scheduleAdhan, printPrayerTimes.
    cbn [coordinates set_scheduler emit]. rewrite getCalculationMethod_coordinates.
    reflexivity.
  - apply (updatePrayerTimes_success_armed L s2 pt Hpt2).
  - apply (updatePrayerTimes_success_armed L s2 pt Hpt2).
  - rewrite otherJobs_updatePrayerTimes. unfold s2.
    cbn [scheduler set_scheduler set_coordinates].
    rewrite otherJobs_RemoveByTag, Hs. reflexivity.
Qed.

(** X16. When [main] exits (the configuration cannot be loaded, or the
    coordinates are refused), its last output is the fatal message, no
    rebuild took place, and the scheduler is as it was created: without a
    job and not started. *)
Theorem main_exits_without_jobs (f : FileSystem) (now : Time) (s' : State) :
  main L (initState f now) = Exited s' ->
  scheduler s' = NewScheduler /\
  rebuilds (trace s') = 0 /\
  ((exists err, snd (loadConfig L (initState f now)) = Some err /\
                trace s' = [Fatal (MsgFailedToLoadConfig err)]) \/
   (exists err, snd (loadConfig L (initState f now)) = None /\
                trace s' = [Serving ":8080"; Fatal (MsgFailedToInitCoordinates err)])).
Proof.
  unfold main.
  pose proof (loadConfig_frame L (initState f now)) as (_ & Hs & _ & _ & Ht).
  destruct (loadConfig L (initState f now)) as [s1 [e |]]; cbn [fst snd] in *.
  - intros [= <-]. cbn [scheduler trace emit]. rewrite Hs, Ht.
    split; [reflexivity | split; [reflexivity |]]. left. eauto.
  - destruct (util_NewCoordinates L _ _) as [c [e |]]; [| discriminate].
    intros [= <-]. cbn [scheduler trace emit set_coordinates]. rewrite Hs, Ht.
    split; [reflexivity | split; [reflexivity |]]. right. eauto.
Qed.

(** [main] reaches the run loop exactly when the configuration is loaded
    and the coordinates are accepted. *)
Lemma main_outcome (f : FileSystem) (now : Time) :
  match main L (initState f now) with
  | Scheduling _ =>
    snd (loadConfig L (initState f now)) = None /\
    snd (util_NewCoordinates L
           (Lan (config (fst (loadConfig L (initState f now)))))
           (Lon (config (fst (loadConfig L (initState f now)))))) = None
  | Exited _ =>
    snd (loadConfig L (initState f now)) <> None \/
    snd (util_NewCoordinates L
           (Lan (config (fst (loadConfig L (initState f now)))))
           (Lon (config (fst (loadConfig L (initState f now)))))) <> None
  end.
Proof.
  unfold main.
  destruct (loadConfig L (initState f now)) as [s1 [e |]]; cbn [fst snd].
  - left. discriminate.
  - change (config (emit (Serving ":8080") s1)) with (config s1).
    destruct (util_NewCoordinates L _ _) as [c [e |]]; cbn [snd].
    + right. discriminate.
    + auto.
Qed.

End Reload.

Lemma onUpdateSettings_coordinates_failure_witness :
  scheduler (onUpdateSettings Cases.noCoordinatesLib Scenario.armed) =
    scheduler Scenario.armed /\
  coordinates (onUpdateSettings Cases.noCoordinatesLib Scenario.armed) = None.
Proof.
  destruct (onUpdateSettings_coordinates_failure Cases.noCoordinatesLib Scenario.armed
              (fst (loadConfig Cases.noCoordinatesLib Scenario.armed)) None
              (LibError "invalid coordinates") eq_refl eq_refl) as (_ & Hs & _ & Hc).
  split; [exact Hs | exact Hc].
Defined.

Lemma onUpdateSettings_success_witness :
  map jobPrayer (adhanJobs (scheduler (onUpdateSettings Scenario.lib Scenario.armed))) =
    map Some dailyPrayers /\
  otherJobs (scheduler (onUpdateSettings Scenario.lib Scenario.armed)) =
    otherJobs (scheduler Scenario.armed).
Proof.
  destruct (onUpdateSettings_success Scenario.lib Scenario.armed
              (fst (loadConfig Scenario.lib Scenario.armed))
              (Some {| util.Latitude := 52.52; util.Longitude := 13.405 |})
              Scenario.timesOf2March eq_refl eq_refl eq_refl)
    as (_ & _ & Hn & _ & Ho).
  split; [exact Hn | exact Ho].
Defined.

Lemma main_exits_without_jobs_witness :
  exists s', main Scenario.lib (initState Cases.emptyDisk Scenario.now) = Exited s' /\
             scheduler s' = NewScheduler /\ rebuilds (trace s') = 0.
Proof.
  eexists. split; [reflexivity |].
  destruct (main_exits_without_jobs Scenario.lib Cases.emptyDisk Scenario.now _ eq_refl)
    as (Hs & Hr & _).
  split; [exact Hs | exact Hr].
Defined.

(** ** Rebuilding again, method names, trigger times *)

Section Again.

Variable L : Library.

Lemma getCalculationMethod_method (m : string) (s1 s2 : State) :
  snd (getCalculationMethod m s1) = snd (getCalculationMethod m s2).
Proof.
  unfold getCalculationMethod.
  repeat (destruct (String.eqb m _); [reflexivity |]). reflexivity.
Qed.

(** What a rebuild computes depends on the configured method, the
    coordinates and the clock only. *)
Lemma todaysTimes_ext (s1 s2 : State) :
  CalculationMethod (config s1) = CalculationMethod (config s2) ->
  coordinates s1 = coordinates s2 ->
  clock s1 = clock s2 ->
  todaysTimes L s1 = todaysTimes L s2.
Proof.
  intros Hm Hc Ht. unfold todaysTimes. rewrite Hm.
  rewrite (getCalculationMethod_method _ s1 s2).
  apply computePrayerTimes_ext; assumption.
Qed.

(** A rebuild changes the scheduler and the output, nothing else. *)
Lemma updatePrayerTimes_frame (s : State) :
  config (updatePrayerTimes L s) = config s /\
  coordinates (updatePrayerTimes L s) = coordinates s /\
  clock (updatePrayerTimes L s) = clock s /\
  fs (updatePrayerTimes L s) = fs s.
Proof.
  rewrite updatePrayerTimes_unfold. cbn zeta.
  destruct (todaysTimes L s) as [pt | msg].
  - unfold scheduleAll, scheduleAdhan, printPrayerTimes.
    cbn [config coordinates clock fs set_scheduler emit].
    rewrite getCalculationMethod_config, getCalculationMethod_coordinates,
      getCalculationMethod_clock, getCalculationMethod_fs. auto.
  - cbn [config coordinates clock fs emit].
    rewrite getCalculationMethod_config, getCalculationMethod_coordinates,
      getCalculationMethod_clock, getCalculationMethod_fs. auto.
Qed.

(** What a rebuild computes depends on the clock through the date and the
    time zone only. *)
Lemma todaysTimes_same_day (s1 s2 : State) :
  CalculationMethod (config s1) = CalculationMethod (config s2) ->
  coordinates s1 = coordinates s2 ->
  data.NewDateComponents (clock s1) = data.NewDateComponents (clock s2) ->
  t_location (clock s1) = t_location (clock s2) ->
  todaysTimes L s1 = todaysTimes L s2.
Proof.
  intros Hm Hc Hd Hl. unfold todaysTimes. rewrite Hm.
  rewrite (getCalculationMethod_method _ s1 s2).
  unfold computePrayerTimes. rewrite Hc, Hd, Hl. reflexivity.
Qed.

(** X18. A second rebuild on the same day (the clock has moved on, but shows
    the same date and time zone; the configuration is the same) gives the
    schedule of the first: the daily group has the same triggers and tasks,
    under new identities, and the scheduler holds as many jobs as after the
    first rebuild. Configuration, coordinates and store are not touched by
    a rebuild. *)
Theorem updatePrayerTimes_twice (s : State) (pt : calc.PrayerTimes) (later : Time) :
  todaysTimes L s = inl pt ->
  data.NewDateComponents later = data.NewDateComponents (clock s) ->
  t_location later = t_location (clock s) ->
  let once := updatePrayerTimes L s in
  let twice := updatePrayerTimes L (set_clock later once) in
  map (fun j => (job_at j, job_task j, job_limit j)) (adhanJobs (scheduler twice)) =
  map (fun j => (job_at j, job_task j, job_limit j)) (adhanJobs (scheduler once)) /\
  otherJobs (scheduler twice) = otherJobs (scheduler s) /\
  length (jobs (scheduler twice)) = length (jobs (scheduler once)) /\
  config twice = config s /\ coordinates twice = coordinates s /\ fs twice = fs s.
Proof.
  intros Hpt Hday Hzone once twice.
  destruct (updatePrayerTimes_frame s) as (Hc & Hco & Hcl & Hfs).
  destruct (updatePrayerTimes_frame (set_clock later once)) as (Hc2 & Hco2 & _ & Hfs2).
  fold once in Hc, Hco, Hcl, Hfs. fold twice in Hc2, Hco2, Hfs2.
  cbn [config coordinates fs set_clock] in Hc2, Hco2, Hfs2.
  assert (Hpt1 : todaysTimes L (set_clock later once) = inl pt).
  { rewrite <- Hpt. apply todaysTimes_same_day; cbn [config coordinates clock set_clock];
      [rewrite Hc | | |]; auto. }
  pose proof (updatePrayerTimes_success_group L s pt Hpt) as G1.
  pose proof (updatePrayerTimes_success_group L (set_clock later once) pt Hpt1) as G2.
  cbn zeta in G1, G2. fold once in G1. fold twice in G2.
  cbn [scheduler set_clock] in G2.
  split; [rewrite G1, G2; reflexivity |].
  assert (Ho : otherJobs (scheduler twice) = otherJobs (scheduler once)).
  { unfold twice. rewrite otherJobs_updatePrayerTimes. reflexivity. }
  split; [rewrite Ho; unfold once; apply otherJobs_updatePrayerTimes |].
  split.
  { assert (Hlen : forall t, length (jobs (scheduler t)) =
                             length (otherJobs (scheduler t)) + length (adhanJobs (scheduler t))).
    { intros t. unfold otherJobs, adhanJobs.
      induction (jobs (scheduler t)) as [|j l IH]; cbn; [reflexivity |].
      destruct (hasTag "adhan" j); cbn; lia. }
    rewrite (Hlen twice), (Hlen once), G1, G2, Ho. reflexivity. }
  rewrite Hc2, Hc, Hco2, Hco, Hfs2, Hfs. auto.
Qed.

(** X19. Every calculation method is selected by its name, without a
    warning; every other text is logged as unknown and read as TURKEY. In
    both cases nothing but the log changes. *)
Theorem getCalculationMethod_names (s : State) :
  (forall m, getCalculationMethod (methodName m) s = (s, m)) /\
  (forall methodStr, (forall m, methodStr <> methodName m) ->
     getCalculationMethod methodStr s =
     (emit (Logged (MsgUnknownMethod methodStr)) s, calc.TURKEY)).
Proof.
  split.
  - intros []; reflexivity.
  - intros methodStr H. unfold getCalculationMethod.
    rewrite (eqb_of_neq methodStr "OTHER" (H calc.OTHER)).
    rewrite (eqb_of_neq methodStr "MUSLIM_WORLD_LEAGUE" (H calc.MUSLIM_WORLD_LEAGUE)).
    rewrite (eqb_of_neq methodStr "TURKEY" (H calc.TURKEY)).
    rewrite (eqb_of_neq methodStr "EGYPTIAN" (H calc.EGYPTIAN)).
    rewrite (eqb_of_neq methodStr "KARACHI" (H calc.KARACHI)).
    rewrite (eqb_of_neq methodStr "UMM_AL_QURA" (H calc.UMM_AL_QURA)).
    rewrite (eqb_of_neq methodStr "DUBAI" (H calc.DUBAI)).
    rewrite (eqb_of_neq methodStr "MOON_SIGHTING_COMMITTEE" (H calc.MOON_SIGHTING_COMMITTEE)).
    rewrite (eqb_of_neq methodStr "NORTH_AMERICA" (H calc.NORTH_AMERICA)).
    rewrite (eqb_of_neq methodStr "KUWAIT" (H calc.KUWAIT)).
    rewrite (eqb_of_neq methodStr "QATAR" (H calc.QATAR)).
    rewrite (eqb_of_neq methodStr "SINGAPORE" (H calc.SINGAPORE)).
    rewrite (eqb_of_neq methodStr "UOIF" (H calc.UOIF)).
    reflexivity.
Qed.

End Again.

Lemma updatePrayerTimes_twice_witness :
  let once := updatePrayerTimes Scenario.lib Scenario.armed in
  let twice := updatePrayerTimes Scenario.lib (set_clock (Scenario.onDay 2 23 59) once) in
  map job_at (adhanJobs (scheduler twice)) = map job_at (adhanJobs (scheduler once)) /\
  length (jobs (scheduler twice)) = 6.
Proof.
  intros once twice.
  destruct (updatePrayerTimes_twice Scenario.lib Scenario.armed Scenario.timesOf2March
              (Scenario.onDay 2 23 59) eq_refl eq_refl eq_refl) as (_ & _ & Hl & _).
  split; [reflexivity | unfold twice, once; rewrite Hl; reflexivity].
Defined.

(** ** Trigger times *)

Lemma digit_mod (a b : nat) : digit a = digit b -> a mod 10 = b mod 10.
Proof.
  unfold digit. intros H.
  pose proof (Nat.mod_upper_bound a 10) as Ha.
  pose proof (Nat.mod_upper_bound b 10) as Hb.
  apply (f_equal nat_of_ascii) in H.
  rewrite !nat_ascii_embedding in H by lia. lia.
Qed.

Lemma pad2_inj (a b : nat) : a < 100 -> b < 100 -> pad2 a = pad2 b -> a = b.
Proof.
  unfold pad2. intros Ha Hb H. injection H as H1 H2.
  apply digit_mod in H1, H2.
  assert (Ha' : a / 10 < 10) by (apply Nat.Div0.div_lt_upper_bound; lia).
  assert (Hb' : b / 10 < 10) by (apply Nat.Div0.div_lt_upper_bound; lia).
  rewrite !Nat.mod_small in H1 by assumption.
  assert (Hq : a / 10 = b / 10) by exact H1.
  pose proof (Nat.div_mod_eq a 10). pose proof (Nat.div_mod_eq b 10). lia.
Qed.

Lemma two_chars_inj (c1 c2 d1 d2 : ascii) (r q : string) :
  String c1 (String c2 r) = String d1 (String d2 q) ->
  String c1 (String c2 EmptyString) = String d1 (String d2 EmptyString) /\ r = q.
Proof. intros H. injection H as -> -> ->. auto. Qed.

Lemma String_tail (c : ascii) (r q : string) : String c r = String c q -> r = q.
Proof. intros H. injection H as ->. reflexivity. Qed.

Lemma pad2_append_inj (a b : nat) (r q : string) :
  a < 100 -> b < 100 -> pad2 a ++ r = pad2 b ++ q -> a = b /\ r = q.
Proof.
  intros Ha Hb H. apply two_chars_inj in H. destruct H as [H ->].
  split; [apply pad2_inj; assumption | reflexivity].
Qed.

(** X20. The trigger of a job is the time of day to the second, eight
    characters long: two prayer times on valid clocks get the same trigger
    exactly when they agree in hour, minute and second, whatever their
    dates, nanoseconds and locations. *)
Theorem Format_150405_same_trigger (t1 t2 : Time) :
  validClock t1 -> validClock t2 ->
  String.length (Format_150405 t1) = 8 /\
  (Format_150405 t1 = Format_150405 t2 <->
   t_hour t1 = t_hour t2 /\ t_minute t1 = t_minute t2 /\ t_second t1 = t_second t2).
Proof.
  intros (Hh1 & Hm1 & Hs1) (Hh2 & Hm2 & Hs2).
  split; [reflexivity |]. split.
  - unfold Format_150405. intros H.
    apply pad2_append_inj in H; [| lia | lia]. destruct H as [Hh H].
    apply (String_tail ":"%char) in H.
    apply pad2_append_inj in H; [| lia | lia]. destruct H as [Hm H].
    apply (String_tail ":"%char) in H.
    apply pad2_inj in H; [| lia | lia]. auto.
  - intros (E1 & E2 & E3). unfold Format_150405. rewrite E1, E2, E3. reflexivity.
Qed.

Lemma Format_150405_same_trigger_witness :
  Format_150405 (Scenario.onDay 1 12 24) = Format_150405 (Scenario.onDay 2 12 24).
Proof.
  destruct (Format_150405_same_trigger (Scenario.onDay 1 12 24) (Scenario.onDay 2 12 24))
    as (_ & H).
  - unfold validClock. cbn. lia.
  - unfold validClock. cbn. lia.
  - apply H. cbn. auto.
Defined.

(** ** Failed computations and the guard of the chain, in general *)

Section Failures.

Variable L : Library.

(** X21. A rebuild whose computation fails (the prayer times cannot be
    computed, or the time zone cannot be set) changes nothing but the
    output: scheduler, configuration, coordinates and store are as before,
    and the output grows by the warning for an unknown method, if any, and
    the logged error. *)
Theorem updatePrayerTimes_failure_only_logs (s : State) (msg : Msg) :
  todaysTimes L s = inr msg ->
  scheduler (updatePrayerTimes L s) = scheduler s /\
  config (updatePrayerTimes L s) = config s /\
  coordinates (updatePrayerTimes L s) = coordinates s /\
  fs (updatePrayerTimes L s) = fs s /\
  (trace (updatePrayerTimes L s) = (trace s ++ [Logged msg])%list \/
   trace (updatePrayerTimes L s) =
     (trace s ++ [Logged (MsgUnknownMethod (CalculationMethod (config s)));
                  Logged msg])%list) /\
  ((exists err, msg = MsgErrorCalculating err) \/ (exists err, msg = MsgErrorTimezone err)).
Proof.
  intros H.
  destruct (updatePrayerTimes_failure L s msg H) as (Hs & Hc & Hco).
  destruct (updatePrayerTimes_frame L s) as (_ & _ & _ & Hfs).
  split; [exact Hs |]. split; [exact Hc |]. split; [exact Hco |]. split; [exact Hfs |].
  split; [| exact (todaysTimes_error L s msg H)].
  rewrite updatePrayerTimes_unfold, H. cbn zeta. cbn [trace emit].
  destruct (getCalculationMethod_state (CalculationMethod (config s)) s) as [-> | ->].
  - left. reflexivity.
  - right. cbn [trace emit]. rewrite <- app_assoc. reflexivity.
Qed.

(** X22. When a settings reload succeeds but the computation that follows
    fails, [onUpdateSettings] leaves the daily group empty: the group was
    removed before the computation. The jobs outside the group are kept,
    and configuration and coordinates are the reloaded ones. *)
Theorem onUpdateSettings_failed_computation (s s1 : State)
    (c : option util.Coordinates) (msg : Msg) :
  loadConfig L s = (s1, None) ->
  util_NewCoordinates L (Lan (config s1)) (Lon (config s1)) = (c, None) ->
  todaysTimes L (set_coordinates c s1) = inr msg ->
  let s' := onUpdateSettings L s in
  adhanJobs (scheduler s') = [] /\
  otherJobs (scheduler s') = otherJobs (scheduler s) /\
  config s' = config s1 /\
  coordinates s' = c.
Proof.
  intros Hload Hc Hfail s'.
  pose proof (loadConfig_frame L s) as (_ & Hs & _). rewrite Hload in Hs. cbn [fst] in Hs.
  set (s2 := set_scheduler (fst (RemoveByTag "adhan" (scheduler (set_coordinates c s1))))
               (set_coordinates c s1)).
  assert (H : s' = updatePrayerTimes L s2).
  { unfold s', onUpdateSettings. rewrite Hload, Hc. reflexivity. }
  assert (Hfail2 : todaysTimes L s2 = inr msg).
  { unfold s2. rewrite todaysTimes_set_scheduler. exact Hfail. }
  destruct (updatePrayerTimes_failure L s2 msg Hfail2) as (Hsch & Hcfg & Hco).
  rewrite H, Hsch, Hcfg, Hco. unfold s2.
  cbn [scheduler config coordinates set_scheduler set_coordinates].
  rewrite adhanJobs_RemoveByTag, otherJobs_RemoveByTag, Hs. auto.
Qed.

(** X23. The guard of the chain as the code has it: the prayer after the
    adhan is started exactly when the adhan was played, the name is not
    "test", and [config.AdhanPrayer] is set at that moment. *)
Theorem adhanJob_secondary_guard (prayerName : string) (prayerTime : Time) (s : State) :
  In (Stdout (MsgPlayingPrayerAfter prayerName))
     (chainOutput L prayerName prayerTime s) <->
  snd (playAudio L (audioFile prayerName) prayerName s) = None /\
  prayerName <> "test" /\
  AdhanPrayer (config s) = true.
Proof. exact (secondaryStarted_iff L prayerName prayerTime s). Qed.

End Failures.

Lemma updatePrayerTimes_failure_only_logs_witness :
  scheduler (updatePrayerTimes Scenario.polarLib Scenario.armed) = scheduler Scenario.armed /\
  config (updatePrayerTimes Scenario.polarLib Scenario.armed) = config Scenario.armed.
Proof.
  destruct (updatePrayerTimes_failure_only_logs Scenario.polarLib Scenario.armed
              (MsgErrorCalculating (LibError "cannot compute prayer times")) eq_refl)
    as (Hs & Hc & _).
  split; [exact Hs | exact Hc].
Defined.

Lemma onUpdateSettings_failed_computation_witness :
  adhanJobs (scheduler (onUpdateSettings Scenario.polarLib Scenario.armed)) = [] /\
  otherJobs (scheduler (onUpdateSettings Scenario.polarLib Scenario.armed)) =
    otherJobs (scheduler Scenario.armed).
Proof.
  destruct (onUpdateSettings_failed_computation Scenario.polarLib Scenario.armed
              (fst (loadConfig Scenario.polarLib Scenario.armed))
              (Some {| util.Latitude := 52.52; util.Longitude := 13.405 |})
              (MsgErrorCalculating (LibError "cannot compute prayer times"))
              eq_refl eq_refl eq_refl) as (Ha & Ho & _).
  split; [exact Ha | exact Ho].
Defined.

(** ** The earlier version *)

Section EarlierVersion.

Variable L : Library.

Lemma Earlier_playAudio_cases (filepath : string) (s : Earlier.State) :
  (exists err, Earlier.playAudio L filepath s = (s, Some err)) \/
  (exists streamer,
     Earlier.playAudio L filepath s = (Earlier.emit (Earlier.Played filepath streamer) s, None)).
Proof.
  unfold Earlier.playAudio.
  destruct (os_Open L filepath) as [f | e]; [| left; eauto].
  destruct (mp3_Decode L f) as [[streamer format] | e]; [| left; eauto].
  destruct (speaker_Init L _ _) as [e |]; [left; eauto | right; eauto].
Qed.

(** Both versions decide in the same way whether a file can be played, and
    play the same decoded samples. *)
Lemma playAudio_same_sound (filepath audioType : string) (s : State) (v : Earlier.State) :
  match playAudio L filepath audioType s, Earlier.playAudio L filepath v with
  | (s', None), (v', None) =>
    exists streamer,
      s' = emit (Played filepath
                   (volumeAdjusted streamer (getVolumeForPrayer (config s) audioType))) s /\
      v' = Earlier.emit (Earlier.Played filepath streamer) v
  | (s', Some e1), (v', Some e2) => s' = s /\ v' = v /\ e1 = e2
  | _, _ => False
  end.
Proof.
  unfold playAudio, Earlier.playAudio.
  destruct (os_Open L filepath) as [f | e]; [| auto].
  destruct (mp3_Decode L f) as [[streamer format] | e]; [| auto].
  destruct (speaker_Init L _ _) as [e |]; [auto | eauto].
Qed.

Lemma audioFiles_later :
  audioFiles = <["sela" := "audio/sela.mp3"]> Earlier.audioFiles.
Proof. reflexivity. Qed.

Lemma audioFile_same (name : string) :
  name <> "sela" -> audioFile name = Earlier.audioFile name.
Proof.
  intros H. unfold audioFile, Earlier.audioFile.
  rewrite audioFiles_later, lookup_insert_ne by congruence. reflexivity.
Qed.

(** X24. The later version with the calculation method TURKEY schedules
    what the earlier version scheduled: from the same scheduler,
    coordinates and clock, [updatePrayerTimes] of both versions ends with
    the same scheduler. *)
Theorem updatePrayerTimes_as_earlier (s : State) (v : Earlier.State) :
  CalculationMethod (config s) = "TURKEY" ->
  coordinates s = Earlier.coordinates v ->
  clock s = Earlier.clock v ->
  scheduler s = Earlier.scheduler v ->
  scheduler (updatePrayerTimes L s) = Earlier.scheduler (Earlier.updatePrayerTimes L v).
Proof.
  intros Hm Hco Hcl Hs.
  unfold updatePrayerTimes, Earlier.updatePrayerTimes. rewrite Hm.
  cbn [getCalculationMethod String.eqb Ascii.eqb Bool.eqb].
  change (getCalculationMethod "TURKEY" s) with (s, calc.TURKEY).
  unfold computePrayerTimes, madhab. rewrite Hco, Hcl.
  destruct (calc_NewPrayerTimes L _ _ _) as [pt | e]; [| exact Hs].
  destruct (calc_SetTimeZone L pt _) as [pt' [e |]]; [exact Hs |].
  unfold scheduleAll, scheduleAdhan, printPrayerTimes, Earlier.scheduleAdhan.
  cbn [scheduler set_scheduler emit
       Earlier.scheduler Earlier.set_scheduler Earlier.emit].
  rewrite Hs. reflexivity.
Qed.

(** X25. For every name but "sela" (which has no sound in the earlier
    version), and with the prayer after the adhan switched alike, the chain
    of the later version plays the same files with the same decoded samples
    in the same order as the chain of the earlier version; the later
    version only wraps them in its volume effect. *)
Theorem adhanJob_as_earlier (prayerName : string) (prayerTime : Time)
    (s : State) (v : Earlier.State) :
  prayerName <> "sela" ->
  AdhanPrayer (config s) = Earlier.playPrayerAfterAdhan v ->
  playedSounds (chainOutput L prayerName prayerTime s) =
  Earlier.playedSounds (Earlier.chainOutput L prayerName prayerTime v).
Proof.
  intros Hname Hflag.
  unfold chainOutput, Earlier.chainOutput, adhanJob, Earlier.adhanJob.
  rewrite <- (audioFile_same prayerName Hname).
  change (Earlier.audioFile "prayer") with (audioFile "prayer").
  set (s1 := emit (Stdout (MsgPlaying prayerName prayerTime)) s).
  set (v1 := Earlier.emit (Earlier.Stdout (Earlier.MsgPlaying prayerName prayerTime)) v).
  pose proof (playAudio_same_sound (audioFile prayerName) prayerName s1 v1) as H1.
  destruct (playAudio L (audioFile prayerName) prayerName s1) as [s2 [e1 |]],
           (Earlier.playAudio L (audioFile prayerName) v1) as [v2 [e2 |]];
    try contradiction.
  - destruct H1 as (-> & -> & _).
    cbn [trace emit Earlier.trace Earlier.emit]. unfold s1, v1.
    cbn [trace emit Earlier.trace Earlier.emit].
    rewrite <- !app_assoc, !skipn_app_exact. reflexivity.
  - destruct H1 as (st & -> & ->).
    change (AdhanPrayer (config (emit _ s1))) with (AdhanPrayer (config s)).
    change (Earlier.playPrayerAfterAdhan (Earlier.emit _ v1))
      with (Earlier.playPrayerAfterAdhan v).
    rewrite <- Hflag.
    destruct (negb (String.eqb prayerName "test") && AdhanPrayer (config s)).
    + match goal with
      | |- context [playAudio L ?f ?a ?s3] =>
        match goal with
        | |- context [Earlier.playAudio L f ?v3] =>
          pose proof (playAudio_same_sound f a s3 v3) as H2;
          destruct (playAudio L f a s3) as [s4 [e1 |]],
                   (Earlier.playAudio L f v3) as [v4 [e2 |]]; try contradiction
        end
      end.
      * destruct H2 as (-> & -> & _). unfold s1, v1.
        cbn [trace emit Earlier.trace Earlier.emit].
        rewrite <- !app_assoc, !skipn_app_exact. reflexivity.
      * destruct H2 as (st' & -> & ->). unfold s1, v1.
        cbn [trace emit Earlier.trace Earlier.emit].
        rewrite <- !app_assoc, !skipn_app_exact. reflexivity.
    + unfold s1, v1. cbn [trace emit Earlier.trace Earlier.emit].
      rewrite <- !app_assoc, !skipn_app_exact. reflexivity.
Qed.

(** X26. [main] of the earlier version has no way out but the run loop:
    whatever the library functions answer, it ends in [StartBlocking] on the
    scheduler that the first rebuild left, with the midnight job as the only
    job outside the daily group and the group empty or the five daily
    prayers. The audio test runs after the rebuild; it plays the test sound
    or logs why it could not, and does not touch the schedule. *)
Theorem Earlier_main_reaches_run_loop (now : Time) :
  let pre := Earlier.set_scheduler (addJob 1 None "00:00" [] UpdateTask NewScheduler)
               (Earlier.initState L now) in
  let s := Earlier.main L (Earlier.initState L now) in
  Earlier.scheduler s =
    StartBlocking (Earlier.scheduler (Earlier.updatePrayerTimes L pre)) /\
  running (Earlier.scheduler s) = true /\
  otherJobs (Earlier.scheduler s) = [midnightJob] /\
  (adhanJobs (Earlier.scheduler s) = [] \/
   map jobPrayer (adhanJobs (Earlier.scheduler s)) = map Some dailyPrayers) /\
  exists test,
    Earlier.trace s = (Earlier.trace (Earlier.updatePrayerTimes L pre) ++ test)%list /\
    Earlier.isAudioTest test.
Proof.
  intros pre s. unfold s.
  set (u := Earlier.updatePrayerTimes L pre).
  change (Earlier.main L (Earlier.initState L now))
    with (Earlier.set_scheduler
            (StartBlocking (Earlier.scheduler (Earlier.testAudioOutput L u)))
            (Earlier.testAudioOutput L u)).
  assert (Hsch : Earlier.scheduler (Earlier.testAudioOutput L u) = Earlier.scheduler u /\
                 exists test,
                   Earlier.trace (Earlier.testAudioOutput L u) =
                     (Earlier.trace u ++ test)%list /\
                   Earlier.isAudioTest test).
  { unfold Earlier.testAudioOutput.
    change (Earlier.audioFile "test") with "audio/test.mp3".
    destruct (Earlier_playAudio_cases "audio/test.mp3"
                (Earlier.emit (Earlier.Stdout Earlier.MsgTestingAudio) u))
      as [[err ->] | [streamer ->]].
    - split; [reflexivity |].
      exists [Earlier.Stdout Earlier.MsgTestingAudio;
              Earlier.Logged (Earlier.MsgAudioTestFailed err)].
      split; [cbn; rewrite <- app_assoc; reflexivity | right; eauto].
    - split; [reflexivity |].
      exists [Earlier.Stdout Earlier.MsgTestingAudio;
              Earlier.Played "audio/test.mp3" streamer;
              Earlier.Stdout Earlier.MsgAudioTestSuccessful].
      split; [cbn; rewrite <- !app_assoc; reflexivity | left; eauto]. }
  destruct Hsch as (Hsch & Htest).
  set (t := Earlier.testAudioOutput L u) in *.
  change (Earlier.scheduler (Earlier.set_scheduler (StartBlocking (Earlier.scheduler t)) t))
    with (StartBlocking (Earlier.scheduler t)).
  change (Earlier.trace (Earlier.set_scheduler (StartBlocking (Earlier.scheduler t)) t))
    with (Earlier.trace t).
  rewrite Hsch.
  split; [reflexivity |]. split; [reflexivity |].
  split; [| split; [| exact Htest]].
  - unfold u, Earlier.updatePrayerTimes.
    destruct (calc_NewPrayerTimes L _ _ _) as [pt | e]; [| reflexivity].
    destruct (calc_SetTimeZone L pt _) as [pt' [e |]]; reflexivity.
  - unfold u, Earlier.updatePrayerTimes.
    destruct (calc_NewPrayerTimes L _ _ _) as [pt | e]; [| left; reflexivity].
    destruct (calc_SetTimeZone L pt _) as [pt' [e |]];
      [left; reflexivity | right; reflexivity].
Qed.

(** X27. The settings update of the earlier version empties the daily group
    before it computes: when the computation of the prayer times fails, the
    group is empty afterwards, the other jobs are as before and the error is
    the only output. *)
Theorem Earlier_onUpdateSettings_failed_computation (v : Earlier.State) (err : Error) :
  calc_NewPrayerTimes L (Earlier.coordinates v)
    (data.NewDateComponents (Earlier.clock v))
    {| calc.Madhab_ := calc.SHAFI_HANBALI_MALIKI; calc.Method := calc.TURKEY |} = Err err ->
  adhanJobs (Earlier.scheduler (Earlier.onUpdateSettings L v)) = [] /\
  otherJobs (Earlier.scheduler (Earlier.onUpdateSettings L v)) =
    otherJobs (Earlier.scheduler v) /\
  Earlier.trace (Earlier.onUpdateSettings L v) =
    (Earlier.trace v ++ [Earlier.Logged (Earlier.MsgErrorCalculating err)])%list.
Proof.
  intros Hfail. unfold Earlier.onUpdateSettings, Earlier.updatePrayerTimes.
  cbn [Earlier.coordinates Earlier.clock Earlier.set_scheduler].
  rewrite Hfail. cbn [Earlier.scheduler Earlier.emit Earlier.trace].
  split; [apply adhanJobs_RemoveByTag |].
  split; [apply otherJobs_RemoveByTag | reflexivity].
Qed.

End EarlierVersion.

Lemma updatePrayerTimes_as_earlier_witness :
  scheduler (updatePrayerTimes Scenario.lib Scenario.armed) =
  Earlier.scheduler (Earlier.updatePrayerTimes Scenario.lib EarlierCases.armed).
Proof.
  exact (updatePrayerTimes_as_earlier Scenario.lib Scenario.armed EarlierCases.armed
           eq_refl eq_refl eq_refl eq_refl).
Defined.

Lemma adhanJob_as_earlier_witness :
  playedSounds (chainOutput Scenario.lib "fajr" (Scenario.onDay 2 5 2) Scenario.armed) =
  Earlier.playedSounds
    (Earlier.chainOutput Scenario.lib "fajr" (Scenario.onDay 2 5 2) EarlierCases.armed).
Proof.
  apply (adhanJob_as_earlier Scenario.lib "fajr" (Scenario.onDay 2 5 2)
           Scenario.armed EarlierCases.armed); [discriminate | reflexivity].
Defined.

Lemma Earlier_onUpdateSettings_failed_computation_witness :
  adhanJobs (Earlier.scheduler
               (Earlier.onUpdateSettings Scenario.polarLib EarlierCases.armed)) = [].
Proof.
  exact (proj1 (Earlier_onUpdateSettings_failed_computation Scenario.polarLib
                  EarlierCases.armed (LibError "cannot compute prayer times") eq_refl)).
Defined.

(** An unknown method name, on the morning of 2 March. *)
Lemma getCalculationMethod_names_witness :
  getCalculationMethod "MAKKAH" Scenario.armed =
  (emit (Logged (MsgUnknownMethod "MAKKAH")) Scenario.armed, calc.TURKEY).
Proof.
  apply (proj2 (getCalculationMethod_names Scenario.armed) "MAKKAH").
  intros m; destruct m; discriminate.
Defined.

(** The request of [Scenario.volumeBody] leaves the latitude as stored. *)
Lemma mergeSettings_keeps_stored_witness :
  mergeSettings Scenario.volumeUpdates Scenario.configTable !! "lan" =
    Scenario.configTable !! "lan".
Proof.
  apply (proj1 (proj2 (mergeSettings_keeps_stored Scenario.volumeUpdates
                         Scenario.configTable)) "lan").
  reflexivity.
Defined.
